(** * llm-service: a shallow embedding of the normalisation layer

    The development follows the layout of the Python package:

    - [exceptions.py]            the error taxonomy ([exn], [LLMErrorClass]);
    - [models/base.py]           the universal data model;
    - [models/capabilities.py]   the adapter protocols ([ChatProvider], ...);
    - [utils/logging.py]         [mask_sensitive_data] and [log_operation];
    - [repositories/base.py], [repositories/base_new.py],
      [repositories/gemini.py]   the dispatchers (modules [base], [base_new],
                                 [gemini]);
    - [services/llm.py]          the service facade (module [llm]).

    Coroutines are run to completion: an [async def] is a computation in the
    monad [M], which threads the list of observable calls made so far and
    yields either a value or a raised exception. *)

From Stdlib Require Import ZArith Floats.
From stdpp Require Import base strings gmap list fin_maps.

Set Warnings "-register-all".
Local Open Scope string_scope.
Local Open Scope list_scope.

(** ** Python values

    [typing.Any] payloads ([dict[str, typing.Any]], provider-native requests
    and raw responses) are JSON-like values.  A [dict] with [str] keys is a
    finite map. *)

Inductive value : Type :=
| VNone
| VBool (b : bool)
| VInt (n : Z)
| VFloat (x : float)
| VStr (s : string)
| VList (l : list value)
| VDict (d : gmap string value).

(** An instance attribute is either bound or was never assigned; reading a
    missing attribute raises [AttributeError]. *)
Inductive attr (A : Type) : Type :=
| Missing
| Bound (a : A).
Arguments Missing {A}.
Arguments Bound {A} a.

(** ** exceptions.py *)

Inductive LLMErrorClass : Type :=
| LLMErrorBase
| Provider
| Validation
| UnsupportedOperation
| Configuration
| RateLimit
| Authentication
| QuotaExceeded
| InvalidRequest
| ContextLengthExceeded.

(** The direct base class of each class of the taxonomy ([None] for
    [LLMError] itself, whose base is [Exception]). *)
Definition base_class (c : LLMErrorClass) : option LLMErrorClass :=
  match c with
  | LLMErrorBase => None
  | Provider | Validation | UnsupportedOperation | Configuration => Some LLMErrorBase
  | RateLimit | Authentication | QuotaExceeded | InvalidRequest
  | ContextLengthExceeded => Some Provider
  end.

Definition LLMErrorClass_eqb (a b : LLMErrorClass) : bool :=
  match a, b with
  | LLMErrorBase, LLMErrorBase | Provider, Provider | Validation, Validation
  | UnsupportedOperation, UnsupportedOperation | Configuration, Configuration
  | RateLimit, RateLimit | Authentication, Authentication
  | QuotaExceeded, QuotaExceeded | InvalidRequest, InvalidRequest
  | ContextLengthExceeded, ContextLengthExceeded => true
  | _, _ => false
  end.

(** [issubclass c d]; the hierarchy of exceptions.py has depth two. *)
Definition issubclass (c d : LLMErrorClass) : bool :=
  LLMErrorClass_eqb c d
  || match base_class c with
     | Some b => LLMErrorClass_eqb b d
                 || match base_class b with
                    | Some b' => LLMErrorClass_eqb b' d
                    | None => false
                    end
     | None => false
     end.

(** Instances of [Exception].  [LLMError] carries the four attributes set by
    [LLMError.__init__]; the built-in exceptions the code raises or runs into
    are kept apart from the taxonomy; [OtherException] stands for any other
    [Exception] subclass (a transport failure, say), named by its class. *)
Inductive exn : Type :=
| LLMError (cls : LLMErrorClass) (message provider : string)
           (code : option string) (raw_error : option exn)
| ValueError (args : list string)
| NotImplementedError (message : string)
| AttributeError (message : string)
| TypeError (message : string)
| OtherException (cls message : string).

(** [ValidationError(msg, provider=p)] and its siblings, as the dispatchers
    call them: [code] and [raw_error] take their default [None]. *)
Definition ValidationError (message provider : string) : exn :=
  LLMError Validation message provider None None.
Definition UnsupportedOperationError (message provider : string) : exn :=
  LLMError UnsupportedOperation message provider None None.
Definition ConfigurationError (message provider : string) : exn :=
  LLMError Configuration message provider None None.

(** [isinstance(e, C)] for a class [C] of the taxonomy. *)
Definition isinstance_exn (e : exn) (c : LLMErrorClass) : bool :=
  match e with
  | LLMError cls _ _ _ _ => issubclass cls c
  | _ => false
  end.

Definition is_LLMError (e : exn) : bool := isinstance_exn e LLMErrorBase.

(** ** Computations

    A call either returns or raises. *)
Inductive result (A : Type) : Type :=
| Return (a : A)
| Raise (e : exn).
Arguments Return {A} a.
Arguments Raise {A} e.

(** What a raising-or-returning call of [convert_error] hands to [raise]:
    the exception it returned, or the one it raised itself. *)
Definition escaping (r : result exn) : exn :=
  match r with
  | Return e => e
  | Raise e => e
  end.

(** ** models/base.py: the universal data model

    Every pydantic model is a record in a module of its own, so that the
    fields keep their Python names. *)

Inductive ContentType : Type := TEXT | IMAGE | PDF | VIDEO | AUDIO.

Definition ContentType_value (c : ContentType) : string :=
  match c with
  | TEXT => "text" | IMAGE => "image" | PDF => "pdf"
  | VIDEO => "video" | AUDIO => "audio"
  end.

Inductive Role : Type := SYSTEM | USER | ASSISTANT | FUNCTION.

Module MediaSource.
Record t : Type := Build {
    type : ContentType;
    mime_type : string;
    data : option string;   (* base64 encoded content *)
    url : option string;    (* HTTP/HTTPS URL *)
    path : option string    (* file system path *)
  }.
End MediaSource.

Module Content.
Record t : Type := Build {
    type : ContentType;
    text : option string;
    media : option MediaSource.t
  }.
End Content.

Module FunctionParameter.
Inductive t : Type := Build {
    type : string;
    description : option string;
    enum : option (list string);
    items : option (gmap string value);
    properties : option (gmap string t);
    required : option (list string)
  }.
End FunctionParameter.

Module Function.
Record t : Type := Build {
    name : string;
    description : string;
    parameters : FunctionParameter.t
  }.
End Function.

Module FunctionCall.
Record t : Type := Build {
    name : string;
    arguments : gmap string value;
    response : option (gmap string value)
  }.
End FunctionCall.

Module Message.
Record t : Type := Build {
    role : Role;
    content : list Content.t;
    name : option string;
    function_call : option FunctionCall.t
  }.
End Message.

Inductive ResponseFormat : Type := text_format | json_format.

Module GenerationConfig.
Record t : Type := Build {
    temperature : option float;
    top_p : option float;
    top_k : option Z;
    max_tokens : option Z;
    stop : option (list string);
    stream : bool;
    functions : option (list Function.t);
    force_function : option string;
    response_format : ResponseFormat
  }.
(** [GenerationConfig()] *)
Definition default : t :=
    Build None None None None None false None None text_format.
End GenerationConfig.

Module Usage.
Record t : Type := Build {
    prompt_tokens : option Z;
    completion_tokens : option Z;
    total_tokens : option Z;
    audio_duration : option float;
    total_dimensions : option Z
  }.
End Usage.

Module ResponseMetadata.
Record t : Type := Build {
    model : string;
    usage : option Usage.t;
    finish_reason : option string;
    raw_response : option (gmap string value)
  }.
End ResponseMetadata.

Module ChatRequest.
Record t : Type := Build {
    model : string;
    messages : list Message.t;
    config : GenerationConfig.t
  }.
End ChatRequest.

Module ChatResponse.
Record t : Type := Build {
    id : string;
    content : list Content.t;
    function_calls : option (list FunctionCall.t);
    metadata : ResponseMetadata.t
  }.
End ChatResponse.

Module ChatStreamResponse.
Record t : Type := Build {
    id : string;
    delta : Content.t + FunctionCall.t;
    metadata : option ResponseMetadata.t;
    done : bool
  }.
End ChatStreamResponse.

Inductive EncodingFormat : Type := float_encoding | base64_encoding.

Module EmbeddingRequest.
Record t : Type := Build {
    model : string;
    input : list (string + Content.t);
    encoding_format : EncodingFormat
  }.
End EmbeddingRequest.

Module EmbeddingData.
Record t : Type := Build {
    index : Z;
    embedding : list float
  }.
End EmbeddingData.

Module EmbeddingResponse.
Record t : Type := Build {
    id : string;
    data : list EmbeddingData.t;
    model : string;
    usage : Usage.t
  }.
End EmbeddingResponse.

Inductive Voice : Type := MALE_1 | MALE_2 | FEMALE_1 | FEMALE_2 | NEUTRAL.
Inductive AudioFormat : Type := MP3 | WAV | OGG | FLAC.

Module SpeechRequest.
Record t : Type := Build {
    model : string;
    input : string;
    voice : Voice;
    format : AudioFormat;
    speed : float;
    pitch : option float;
    volume : option float
  }.
End SpeechRequest.

Module SpeechResponse.
Record t : Type := Build {
    id : string;
    audio : string;
    duration : float;
    format : AudioFormat;
    metadata : ResponseMetadata.t
  }.
End SpeechResponse.

(** *** Construction of a [MediaSource]

    Calling the class [MediaSource] with keyword arguments runs pydantic's
    validation of the declared fields, and nothing else: the class declares
    no validator.  [type] and
    [mime_type] are required, [data], [url] and [path] default to [None],
    and [model_config] forbids undeclared keys. *)

Inductive validated (A : Type) : Type :=
| Accepted (a : A)
| Rejected (errors : list string).
Arguments Accepted {A} a.
Arguments Rejected {A} errors.

Definition ContentType_of_value (v : value) : option ContentType :=
  match v with
  | VStr s =>
      if String.eqb s "text" then Some TEXT
      else if String.eqb s "image" then Some IMAGE
      else if String.eqb s "pdf" then Some PDF
      else if String.eqb s "video" then Some VIDEO
      else if String.eqb s "audio" then Some AUDIO
      else None
  | _ => None
  end.

(** A required [str] field. *)
Definition required_str (o : option value) : option string :=
  match o with
  | Some (VStr s) => Some s
  | _ => None
  end.

(** A field declared [str | None = None]. *)
Definition optional_str (o : option value) : option (option string) :=
  match o with
  | None | Some VNone => Some None
  | Some (VStr s) => Some (Some s)
  | Some _ => None
  end.

Definition MediaSource_fields : gset string :=
  {[ "type"; "mime_type"; "data"; "url"; "path" ]}.

Definition problem {A : Type} (field : string) (o : option A) : list string :=
  match o with
  | Some _ => []
  | None => [field]
  end.

Definition MediaSource_init (kwargs : gmap string value) : validated MediaSource.t :=
  let type := kwargs !! "type" ≫= ContentType_of_value in
  let mime_type := required_str (kwargs !! "mime_type") in
  let data := optional_str (kwargs !! "data") in
  let url := optional_str (kwargs !! "url") in
  let path := optional_str (kwargs !! "path") in
  let extra := bool_decide (dom kwargs ⊆ MediaSource_fields) in
  match type, mime_type, data, url, path, extra with
  | Some t, Some m, Some d, Some u, Some p, true =>
      Accepted (MediaSource.Build t m d u p)
  | _, _, _, _, _, _ =>
      Rejected (problem "type" type ++ problem "mime_type" mime_type
                ++ problem "data" data ++ problem "url" url
                ++ problem "path" path
                ++ (if extra then [] else ["extra_forbidden"]))
  end.

(** The number of source fields that are set. *)
Definition sources_set (m : MediaSource.t) : nat :=
  length (omap id [MediaSource.data m; MediaSource.url m; MediaSource.path m]).

(** The keyword arguments of [MediaSource(type=t, mime_type=m, data=d,
    url=u, path=p)], an absent optional argument being left out. *)
Definition opt_kwarg (k : string) (o : option string) (kw : gmap string value)
  : gmap string value :=
  match o with
  | Some s => <[k := VStr s]> kw
  | None => kw
  end.

Definition MediaSource_kwargs (t : ContentType) (m : string)
    (d u p : option string) : gmap string value :=
  opt_kwarg "data" d (opt_kwarg "url" u (opt_kwarg "path" p
    {[ "type" := VStr (ContentType_value t); "mime_type" := VStr m ]})).

(** ** utils/logging.py: masking *)

Definition SENSITIVE_FIELDS : gset string :=
  {[ "api_key"; "key"; "token"; "password"; "secret" ]}.

Section Masking.
  (** [str.lower].  Python lower-cases by Unicode rules, which a string of
      bytes cannot replay, so the function is a parameter of the model;
      [ascii_lower] below instantiates it on ASCII keys. *)
Variable lower : string → string.

Definition sensitive (k : string) : bool :=
    bool_decide (lower k ∈ SENSITIVE_FIELDS).

  (** [_mask_dict(v) if isinstance(v, dict) else v] *)
Fixpoint mask_value (v : value) : value :=
    match v with
    | VDict d =>
        VDict (map_imap
                 (λ k v', Some (if sensitive k then VStr "***" else mask_value v'))
                 d)
    | _ => v
    end.

  (** The dict comprehension of [_mask_dict]: one entry per entry of [d],
      under the same key. *)
Definition _mask_dict (d : gmap string value) : gmap string value :=
    map_imap (λ k v, Some (if sensitive k then VStr "***" else mask_value v)) d.

Definition mask_sensitive_data (data : gmap string value) : gmap string value :=
    _mask_dict data.
End Masking.

Definition ascii_lower_char (c : Ascii.ascii) : Ascii.ascii :=
  let n := Ascii.nat_of_ascii c in
  if (65 <=? n)%nat && (n <=? 90)%nat then Ascii.ascii_of_nat (n + 32) else c.

Fixpoint ascii_lower (s : string) : string :=
  match s with
  | EmptyString => EmptyString
  | String c s' => String (ascii_lower_char c) (ascii_lower s')
  end.

(** [d[k1][k2]...[kn]], defined when every value on the way but the last is
    a dict holding the next key. *)
Fixpoint lookup_path (p : list string) (v : value) : option value :=
  match p with
  | [] => Some v
  | k :: p' =>
      match v with
      | VDict d => d !! k ≫= lookup_path p'
      | _ => None
      end
  end.

(** ** The calls a dispatch makes, and the monad that records them *)

Module HttpRequest.
  (** The keyword arguments of [fetch.make_request]. *)
Record t : Type := Build {
    url : string;
    method : string;
    headers : gmap string value;
    params : option (gmap string value);
    body : value;
    model : string
  }.
End HttpRequest.

Inductive AdapterCall : Type :=
| validate_request
| convert_request
| convert_response
| convert_error (e : exn).

Inductive LogLevel : Type := INFO | ERROR.

Inductive event : Type :=
| EvSettings (name : string)          (* a read of settings.llms.<name> *)
| EvAdapter (c : AdapterCall)         (* a call of a method of self.provider *)
| EvTransport (r : HttpRequest.t)     (* a call of fetch.make_request *)
| EvLog (level : LogLevel) (message : string).

Definition trace : Type := list event.

Definition M (A : Type) : Type := trace → result A * trace.

Definition ret {A : Type} (a : A) : M A := λ t, (Return a, t).

Definition bind {A B : Type} (m : M A) (k : A → M B) : M B :=
  λ t, match m t with
       | (Return a, t') => k a t'
       | (Raise e, t') => (Raise e, t')
       end.

#[global] Instance M_ret : MRet M := @ret.
#[global] Instance M_bind : MBind M := λ A B k m, bind m k.

Definition raise {A : Type} (e : exn) : M A := λ t, (Raise e, t).

(** An effect-free step that may raise. *)
Definition lift {A : Type} (r : result A) : M A := λ t, (r, t).

(** A call to a collaborator: it is recorded, then returns or raises. *)
Definition call {A : Type} (ev : event) (r : result A) : M A :=
  λ t, (r, t ++ [ev]).

Definition log (level : LogLevel) (message : string) : M unit :=
  λ t, (Return (), t ++ [EvLog level message]).

(** [try: body except Exception as e: handler(e)] *)
Definition try_except {A : Type} (body : M A) (handler : exn → M A) : M A :=
  λ t, match body t with
       | (Return a, t') => (Return a, t')
       | (Raise e, t') => handler e t'
       end.

(** Running a computation from the empty trace. *)
Definition run {A : Type} (m : M A) : result A * trace := m [].

Definition is_transport (ev : event) : bool :=
  match ev with EvTransport _ => true | _ => false end.

Definition is_adapter_call (c : AdapterCall) (ev : event) : bool :=
  match ev, c with
  | EvAdapter validate_request, validate_request
  | EvAdapter convert_request, convert_request
  | EvAdapter convert_response, convert_response
  | EvAdapter (convert_error _), convert_error _ => true
  | _, _ => false
  end.

Definition is_log (ev : event) : bool :=
  match ev with EvLog _ _ => true | _ => false end.

(** The calls of a trace that reach the adapter, the transport or the
    settings; log records are left out. *)
Definition calls (t : trace) : trace := filter (λ ev, is_log ev = false) t.

(** ** External collaborators

    [lib.app.settings] and [utils.fetch] are imported by the repositories
    and are not part of the package; they are parameters of every
    dispatch. *)

Module settings.
Record llms : Type := Build {
    openai_api_key : option string;
    openai_org_id : option string;
    anthropic_api_key : option string;
    anthropic_version : option string;
    gemini_api_key : option string;
    gemini_version : option string
  }.
End settings.

Record Env : Type := {
  llms : settings.llms;
  (** [fetch.make_request]: the transport collaborator. *)
  make_request : HttpRequest.t → result value;
  (** The outcome of [isinstance(self.provider, capabilities.XProvider)].
      The three protocols are declared as plain [typing.Protocol] classes,
      without [runtime_checkable]; on such a class CPython answers the
      check by raising [TypeError], whatever the adapter.  The outcome is
      kept as a parameter, so that every statement below that does not
      assume it holds for that behaviour too. *)
  isinstance_provider : result bool
}.

(** [x or default] on an optional string: [None] and the empty string are
    falsy. *)
Definition or_else (x : option string) (default : string) : string :=
  match x with
  | Some s => if String.eqb s "" then default else s
  | None => default
  end.

Definition truthy (x : option string) : bool :=
  match x with
  | Some s => negb (String.eqb s "")
  | None => false
  end.

(** [str(x)] inside an f-string. *)
Definition str (x : option string) : string :=
  match x with
  | Some s => s
  | None => "None"
  end.

Definition value_of (x : option string) : value :=
  match x with
  | Some s => VStr s
  | None => VNone
  end.

(** ** utils/logging.py: the logging decorator *)

(** How the caller passes the request: [repo.complete(request)] or
    [repo.complete(request=request)].  Only the second puts it in
    [kwargs]. *)
Inductive CallStyle : Type := positional | by_keyword.

Definition in_kwargs (style : CallStyle) : bool :=
  match style with
  | positional => false
  | by_keyword => true
  end.

(** [with RequestLogger(...): body].  [__exit__] logs one record and returns
    [None], so an exception raised by the body propagates.  The request id
    and the measured duration do not influence the result and are left
    out. *)
Definition RequestLogger {A : Type} (body : M A) : M A :=
  λ t, match body t with
       | (Return a, t') => (Return a, t' ++ [EvLog INFO "Request completed"])
       | (Raise e, t') => (Raise e, t' ++ [EvLog ERROR "Request failed"])
       end.

(** [bool(x)] for an instance of a pydantic model: [BaseModel] defines
    neither [__bool__] nor [__len__], so every instance is truthy. *)
Definition model_truthy {A : Type} (x : A) : bool := true.

(** [log_operation(provider, operation, log_request, log_response,
    mask_sensitive)(func)], called in the given style.  [request_truthy] is
    [bool(request)] of the request the caller passes and [bool_of] is
    [bool(response)] of what the coroutine returns: the wrapper tests
    [log_request and kwargs.get('request')] before the call, where
    [kwargs.get] gives [None] for a request passed positionally, and
    [log_response and response] after it.

    Inside [wrapper] the names [log_request] and [log_response] are the
    boolean parameters of [log_operation], which shadow the module-level
    functions of the same names: where a test passes, the wrapper calls a
    [bool], and Python raises [TypeError]. *)
Definition log_operation (provider operation : string)
    (log_request log_response mask_sensitive : bool)
    {A : Type} (bool_of : A → bool) (style : CallStyle) (request_truthy : bool)
    (func : M A) : M A :=
  (if log_request && (in_kwargs style && request_truthy)
   then raise (TypeError "'bool' object is not callable")
   else mret ());;
  RequestLogger
    (response ← func;
     (if log_response && bool_of response
      then raise (TypeError "'bool' object is not callable")
      else mret ());;
     mret response).

(** ** models/capabilities.py: the adapter protocols *)

#[global] Instance ContentType_eq_dec : EqDecision ContentType.
Proof. solve_decision. Defined.

Definition ContentType_to_nat (c : ContentType) : nat :=
  match c with TEXT => 0 | IMAGE => 1 | PDF => 2 | VIDEO => 3 | AUDIO => 4 end.

Definition ContentType_of_nat (n : nat) : option ContentType :=
  match n with
  | 0 => Some TEXT | 1 => Some IMAGE | 2 => Some PDF
  | 3 => Some VIDEO | 4 => Some AUDIO | _ => None
  end.

#[global] Program Instance ContentType_countable : Countable ContentType :=
  inj_countable ContentType_to_nat ContentType_of_nat _.
Next Obligation. by intros []. Qed.

(** Every dispatcher also calls [convert_error] on its adapter; the method
    is declared by [LLMProvider] in models/provider.py.  An adapter that
    lacks it is one whose [convert_error] raises [AttributeError]. *)

Module ChatProvider.
Record t : Type := Build {
    name : string;
    supported_content_types : gset ContentType;
    supports_functions : bool;
    supports_json_response : bool;
    validate_chat_request : ChatRequest.t → result (list string);
    convert_chat_request : ChatRequest.t → result value;
    convert_chat_response : value → ChatRequest.t → result ChatResponse.t;
    convert_chat_stream : value → ChatRequest.t → result ChatStreamResponse.t;
    convert_error : exn → result exn
  }.
End ChatProvider.

Module EmbeddingProvider.
Record t : Type := Build {
    name : string;
    supported_content_types : gset ContentType;
    embedding_dimensions : Z;
    validate_embedding_request : EmbeddingRequest.t → result (list string);
    convert_embedding_request : EmbeddingRequest.t → result value;
    convert_embedding_response :
      value → EmbeddingRequest.t → result EmbeddingResponse.t;
    convert_error : exn → result exn
  }.
End EmbeddingProvider.

Module SpeechProvider.
Record t : Type := Build {
    name : string;
    supported_voices : list string;
    supported_audio_formats : gset string;
    validate_speech_request : SpeechRequest.t → result (list string);
    convert_speech_request : SpeechRequest.t → result value;
    convert_speech_response : value → SpeechRequest.t → result SpeechResponse.t;
    convert_error : exn → result exn
  }.
End SpeechProvider.

(** The three repository classes of a module differ in the request and
    response types, the adapter methods they call, the endpoint and the
    wording of their messages.  A [Capability] collects these, so that the
    shared method body is written once per module and [complete], [embed]
    and [synthesize] are its three instances. *)
Record Capability : Type := {
  Request : Type;
  Response : Type;
  Adapter : Type;
  request_model : Request → string;                       (* request.model *)
  validate : Adapter → Request → result (list string);
  convert_req : Adapter → Request → result value;
  convert_resp : Adapter → value → Request → result Response;
  convert_err : Adapter → exn → result exn;
  endpoint : string;          (* the path under base_url in base.py / base_new.py *)
  label : string;             (* the subject of the unsupported-operation message *)
  operation : string          (* the operation name given to log_operation *)
}.

Definition chat : Capability := {|
  Request := ChatRequest.t;
  Response := ChatResponse.t;
  Adapter := ChatProvider.t;
  request_model := ChatRequest.model;
  validate := ChatProvider.validate_chat_request;
  convert_req := ChatProvider.convert_chat_request;
  convert_resp := ChatProvider.convert_chat_response;
  convert_err := ChatProvider.convert_error;
  endpoint := "/v1/chat/completions";
  label := "Chat completion";
  operation := "chat_completion"
|}.

Definition embedding : Capability := {|
  Request := EmbeddingRequest.t;
  Response := EmbeddingResponse.t;
  Adapter := EmbeddingProvider.t;
  request_model := EmbeddingRequest.model;
  validate := EmbeddingProvider.validate_embedding_request;
  convert_req := EmbeddingProvider.convert_embedding_request;
  convert_resp := EmbeddingProvider.convert_embedding_response;
  convert_err := EmbeddingProvider.convert_error;
  endpoint := "/v1/embeddings";
  label := "Embeddings";
  operation := "embeddings"
|}.

Definition speech : Capability := {|
  Request := SpeechRequest.t;
  Response := SpeechResponse.t;
  Adapter := SpeechProvider.t;
  request_model := SpeechRequest.model;
  validate := SpeechProvider.validate_speech_request;
  convert_req := SpeechProvider.convert_speech_request;
  convert_resp := SpeechProvider.convert_speech_response;
  convert_err := SpeechProvider.convert_error;
  endpoint := "/v1/audio/speech";
  label := "Speech synthesis";
  operation := "speech_synthesis"
|}.

(** ** Repository objects

    The class of a repository decides [provider_name], [base_url] and the
    implementation of [_get_headers] and [_get_api_key]: a direct subclass
    of the base classes that only supplies the two annotated attributes, or
    one of the three mixins of repositories/openai.py, anthropic.py and
    gemini.py. *)
Inductive RepoClass : Type :=
| Plain (provider_name base_url : string)
| OpenAI
| Anthropic
| Gemini.

Definition provider_name (c : RepoClass) : string :=
  match c with
  | Plain n _ => n
  | OpenAI => "openai"
  | Anthropic => "anthropic"
  | Gemini => "gemini"
  end.

Definition base_url (c : RepoClass) : string :=
  match c with
  | Plain _ u => u
  | OpenAI => "https://api.openai.com"
  | Anthropic => "https://api.anthropic.com"
  | Gemini => "https://generativelanguage.googleapis.com"
  end.

(** The instance: its class, the class attribute naming the response model
    ([chat_response_model] and the like), and the instance attributes. *)
Record Repository (P : Type) : Type := {
  class : RepoClass;
  response_model : string;
  provider : P;
  api_key : attr (option string);
  version : string                     (* set by GeminiBaseMixin.__init__ *)
}.
Arguments class {P} _.
Arguments response_model {P} _.
Arguments provider {P} _.
Arguments api_key {P} _.
Arguments version {P} _.

(** [self.api_key].  The message of the [AttributeError] is cut down to the
    name of the attribute. *)
Definition get_api_key {P : Type} (self : Repository P) : result (option string) :=
  match api_key self with
  | Bound k => Return k
  | Missing => Raise (AttributeError "api_key")
  end.

(** [NameError], raised where a function uses a global name that its module
    neither defines nor imports. *)
Definition NameError (name : string) : exn :=
  OtherException "NameError" ("name '" +:+ name +:+ "' is not defined").

(** [_get_api_key], by class.  A mixin reads its setting, and reads it a
    second time to return it.  Where the setting is missing or empty the
    mixin evaluates [ConfigurationError(...)], a name that openai.py,
    anthropic.py and gemini.py use without importing it: the lookup of the
    name raises [NameError] before any exception object is built. *)
Definition _get_api_key (env : Env) (c : RepoClass) : M string :=
  match c with
  | Plain n _ =>
      raise (NotImplementedError ("API key retrieval not implemented for " +:+ n))
  | OpenAI =>
      k ← call (EvSettings "openai_api_key")
               (Return (settings.openai_api_key (llms env)));
      if truthy k
      then k' ← call (EvSettings "openai_api_key")
                     (Return (settings.openai_api_key (llms env)));
           mret (str k')
      else raise (NameError "ConfigurationError")
  | Anthropic =>
      k ← call (EvSettings "anthropic_api_key")
               (Return (settings.anthropic_api_key (llms env)));
      if truthy k
      then k' ← call (EvSettings "anthropic_api_key")
                     (Return (settings.anthropic_api_key (llms env)));
           mret (str k')
      else raise (NameError "ConfigurationError")
  | Gemini =>
      k ← call (EvSettings "gemini_api_key")
               (Return (settings.gemini_api_key (llms env)));
      if truthy k
      then k' ← call (EvSettings "gemini_api_key")
                     (Return (settings.gemini_api_key (llms env)));
           mret (str k')
      else raise (NameError "ConfigurationError")
  end.

(** [_get_headers], by class. *)
Definition _get_headers {P : Type} (env : Env) (self : Repository P)
  : result (gmap string value) :=
  match class self with
  | Plain n _ => Raise (NotImplementedError ("Headers not implemented for " +:+ n))
  | OpenAI =>
      match get_api_key self with
      | Raise e => Raise e
      | Return k =>
          Return {[ "Authorization" := VStr ("Bearer " +:+ str k);
                    "Content-Type" := VStr "application/json";
                    "OpenAI-Organization" :=
                      VStr (or_else (settings.openai_org_id (llms env)) "") ]}
      end
  | Anthropic =>
      match get_api_key self with
      | Raise e => Raise e
      | Return k =>
          Return {[ "x-api-key" := value_of k;
                    "anthropic-version" :=
                      VStr (or_else (settings.anthropic_version (llms env))
                              "2023-06-01");
                    "Content-Type" := VStr "application/json" ]}
      end
  | Gemini => Return {[ "Content-Type" := VStr "application/json" ]}
  end.

(** [_validate_configuration] *)
Definition _validate_configuration {P : Type} (self : Repository P) : M unit :=
  k ← lift (get_api_key self);
  if negb (truthy k)
  then raise (ConfigurationError
                ("API key not configured for " +:+ provider_name (class self))
                (provider_name (class self)))
  else mret ().

(** [fetch.make_request(...)] *)
Definition fetch (env : Env) (r : HttpRequest.t) : M value :=
  call (EvTransport r) (make_request env r).

(** [if errors:] on a list. *)
Definition nonempty {A : Type} (l : list A) : bool :=
  match l with
  | [] => false
  | _ :: _ => true
  end.

(** ** repositories/base.py *)

Module base.

(** [ChatRepository.__init__(self, provider)], and the same for the other
    two classes: it assigns [self.provider] and does not call
    [BaseLLMRepository.__init__].  The mixins of openai.py and anthropic.py
    define no [__init__], so this is also what constructing their
    repositories runs. *)
Definition __init__ {P : Type} (c : RepoClass) (response_model : string)
    (provider : P) : M (Repository P) :=
  mret {| class := c; response_model := response_model; provider := provider;
          api_key := Missing; version := "" |}.

(** The body shared by [ChatRepository.complete],
    [EmbeddingRepository.embed] and [SpeechRepository.synthesize]. *)
Definition dispatch (cap : Capability) (env : Env)
    (self : Repository (Adapter cap)) (request : Request cap) : M (Response cap) :=
  errors ← call (EvAdapter validate_request)
                (validate cap (provider self) request);
  if nonempty errors then raise (ValueError errors)
  else
    provider_request ← call (EvAdapter convert_request)
                            (convert_req cap (provider self) request);
    try_except
      (headers ← lift (_get_headers env self);
       raw_response ← fetch env
         {| HttpRequest.url := base_url (class self) +:+ endpoint cap;
            HttpRequest.method := "POST";
            HttpRequest.headers := headers;
            HttpRequest.params := None;
            HttpRequest.body := provider_request;
            HttpRequest.model := response_model self |};
       call (EvAdapter convert_response)
            (convert_resp cap (provider self) raw_response request))
      (λ e, e' ← call (EvAdapter (convert_error e))
                      (convert_err cap (provider self) e);
            raise e').

Definition complete := dispatch chat.
Definition embed := dispatch embedding.
Definition synthesize := dispatch speech.

End base.

(** ** repositories/base_new.py *)

Module base_new.

(** [BaseLLMRepository.__init__(self, api_key)]:
    [self.api_key = api_key or self._get_api_key()]. *)
Definition BaseLLMRepository__init__ (env : Env) (c : RepoClass)
    (api_key : option string) : M string :=
  if truthy api_key then mret (str api_key) else _get_api_key env c.

(** [ChatRepository.__init__(self, provider, api_key=None)] and its two
    siblings. *)
Definition __init__ {P : Type} (env : Env) (c : RepoClass)
    (response_model : string) (provider : P) (api_key : option string)
  : M (Repository P) :=
  k ← BaseLLMRepository__init__ env c api_key;
  mret {| class := c; response_model := response_model; provider := provider;
          api_key := Bound (Some k); version := "" |}.

(** The method body shared by [complete], [embed] and [synthesize], before
    decoration. *)
Definition dispatch_body (cap : Capability) (env : Env)
    (self : Repository (Adapter cap)) (request : Request cap) : M (Response cap) :=
  _validate_configuration self;;
  supported ← lift (isinstance_provider env);
  if negb supported
  then raise (UnsupportedOperationError
                (label cap +:+ " not supported by " +:+ provider_name (class self))
                (provider_name (class self)))
  else
    errors ← call (EvAdapter validate_request)
                  (validate cap (provider self) request);
    if nonempty errors
    then raise (ValidationError
                  ("Invalid request: " +:+ String.concat ", " errors)
                  (provider_name (class self)))
    else
      provider_request ← call (EvAdapter convert_request)
                              (convert_req cap (provider self) request);
      try_except
        (headers ← lift (_get_headers env self);
         raw_response ← fetch env
           {| HttpRequest.url := base_url (class self) +:+ endpoint cap;
              HttpRequest.method := "POST";
              HttpRequest.headers := headers;
              HttpRequest.params := None;
              HttpRequest.body := provider_request;
              HttpRequest.model := response_model self |};
         call (EvAdapter convert_response)
              (convert_resp cap (provider self) raw_response request))
        (λ e, e' ← call (EvAdapter (convert_error e))
                        (convert_err cap (provider self) e);
              raise e').

(** The decorated method: [log_operation(provider="provider_name",
    operation=...)] with the three flags at their default [True].  The
    request and the response are instances of pydantic models. *)
Definition dispatch (cap : Capability) (env : Env) (style : CallStyle)
    (self : Repository (Adapter cap)) (request : Request cap) : M (Response cap) :=
  log_operation "provider_name" (operation cap) true true true
    model_truthy style (model_truthy request)
    (dispatch_body cap env self request).

Definition complete := dispatch chat.
Definition embed := dispatch embedding.
Definition synthesize := dispatch speech.

End base_new.

(** ** repositories/gemini.py

    The module uses [logging_utils], [fetch], [capabilities], [base] and
    [ValidationError] without importing them; they are read as the
    definitions of those names elsewhere in the package. *)

Module gemini.

(** The method body shared by [GeminiChatRepository.complete] and
    [GeminiEmbeddingRepository.embed], before decoration; [action] is the
    suffix of the URL, which is all that tells the two apart beyond their
    capability. *)
Definition dispatch_body (cap : Capability) (action : string) (env : Env)
    (self : Repository (Adapter cap)) (request : Request cap) : M (Response cap) :=
  _validate_configuration self;;
  supported ← lift (isinstance_provider env);
  if negb supported
  then raise (UnsupportedOperationError
                (label cap +:+ " not supported by Gemini")
                (provider_name (class self)))
  else
    errors ← call (EvAdapter validate_request)
                  (validate cap (provider self) request);
    if nonempty errors
    then raise (ValidationError
                  ("Invalid request: " +:+ String.concat ", " errors)
                  (provider_name (class self)))
    else
      provider_request ← call (EvAdapter convert_request)
                              (convert_req cap (provider self) request);
      try_except
        (headers ← lift (_get_headers env self);
         key ← lift (get_api_key self);
         raw_response ← fetch env
           {| HttpRequest.url :=
                base_url (class self) +:+ "/" +:+ version self +:+ "/models/"
                +:+ request_model cap request +:+ action;
              HttpRequest.method := "POST";
              HttpRequest.headers := headers;
              HttpRequest.params := Some {[ "key" := value_of key ]};
              HttpRequest.body := provider_request;
              HttpRequest.model := response_model self |};
         call (EvAdapter convert_response)
              (convert_resp cap (provider self) raw_response request))
        (λ e, e' ← call (EvAdapter (convert_error e))
                        (convert_err cap (provider self) e);
              raise e').

Definition dispatch (cap : Capability) (action : string) (env : Env)
    (style : CallStyle) (self : Repository (Adapter cap)) (request : Request cap)
  : M (Response cap) :=
  log_operation "gemini" (operation cap) true true true
    model_truthy style (model_truthy request)
    (dispatch_body cap action env self request).

(** [GeminiChatRepository.complete] *)
Definition complete := dispatch chat ":generateContent".
(** [GeminiEmbeddingRepository.embed] *)
Definition embed := dispatch embedding ":embedContent".

End gemini.

(** ** services/llm.py *)

Module llm.

(** A repository as the service sees it: an object on which the one method
    of its capability can be called with the request as positional
    argument. *)
Record LLMService : Type := {
  chat_repo : option (ChatRequest.t → M ChatResponse.t);
  embedding_repo : option (EmbeddingRequest.t → M EmbeddingResponse.t);
  speech_repo : option (SpeechRequest.t → M SpeechResponse.t)
}.

Definition complete (self : LLMService) (request : ChatRequest.t)
  : M ChatResponse.t :=
  match chat_repo self with
  | None => raise (NotImplementedError "Chat completion not supported")
  | Some repo_complete => repo_complete request
  end.

Definition embed (self : LLMService) (request : EmbeddingRequest.t)
  : M EmbeddingResponse.t :=
  match embedding_repo self with
  | None => raise (NotImplementedError "Embeddings not supported")
  | Some repo_embed => repo_embed request
  end.

Definition synthesize (self : LLMService) (request : SpeechRequest.t)
  : M SpeechResponse.t :=
  match speech_repo self with
  | None => raise (NotImplementedError "Speech synthesis not supported")
  | Some repo_synthesize => repo_synthesize request
  end.

End llm.

(** ** The Stream Reconstructor *)

Module StreamReconstructor.

Section Fold.
(** The provider identity carried by every error. *)
Variable provider : string.
(** The request the chunks answer. *)
Variable request : ChatRequest.t.
(** The content index a chunk's delta belongs to.  [ChatStreamResponse] has
    no such field: the index is what the adapter's [convert_chat_stream]
    knows about the vendor chunk it converted. *)
Variable content_index : ChatStreamResponse.t → nat.
(** How a function-call fragment is added to the pending call of its index. *)
Variable merge_call : FunctionCall.t → FunctionCall.t → FunctionCall.t.

Record state : Type := {
  id : string;
  texts : gmap nat string;              (* text accumulated per content index *)
  media : gmap nat (list Content.t);    (* the other content deltas per index *)
  pending : gmap nat FunctionCall.t;    (* pending call per index *)
  next : nat;                           (* one more than the largest content index *)
  metadata : option ResponseMetadata.t; (* of the last chunk that carried one *)
  usage : option Usage.t;               (* of the last chunk that reported it *)
  finished : bool                       (* a chunk with done=true was folded *)
}.

Definition initial (id : string) : state :=
  {| id := id; texts := ∅; media := ∅; pending := ∅; next := 0;
     metadata := None; usage := None; finished := false |}.

Definition is_text (p : Content.t) : bool :=
  match Content.type p with TEXT => true | _ => false end.

Definition text_of (p : Content.t) : string := default "" (Content.text p).

Definition reported_usage (c : ChatStreamResponse.t) : option Usage.t :=
  ChatStreamResponse.metadata c ≫= ResponseMetadata.usage.

Definition repeated_terminal : exn :=
  LLMError Provider "terminal chunk received after done" provider None None.

(** Modelled from the spec: the package holds the chunk type
    [ChatStreamResponse] and no code that folds chunks; this is the fold of
    section 4.4.  Text deltas are appended, in arrival order, to the text of
    their content index; a content delta of another type is kept, whole,
    at its content index; function-call deltas are merged into the pending
    call of their index; usage is that of the last chunk reporting one; a
    terminal chunk arriving once [done] was seen is a Provider error and is
    not merged. *)
Definition step (st : state) (c : ChatStreamResponse.t) : result state :=
  if finished st && ChatStreamResponse.done c then Raise repeated_terminal
  else
    let i := content_index c in
    let meta := match ChatStreamResponse.metadata c with
                | Some m => Some m
                | None => metadata st
                end in
    let use := match reported_usage c with
               | Some u => Some u
               | None => usage st
               end in
    let fin := finished st || ChatStreamResponse.done c in
    match ChatStreamResponse.delta c with
    | inl p =>
        if is_text p
        then Return {| id := id st;
                       texts := <[i := default "" (texts st !! i) +:+ text_of p]>
                                  (texts st);
                       media := media st; pending := pending st;
                       next := next st `max` S i;
                       metadata := meta; usage := use; finished := fin |}
        else Return {| id := id st; texts := texts st;
                       media := <[i := default [] (media st !! i) ++ [p]]>
                                  (media st);
                       pending := pending st;
                       next := next st `max` S i;
                       metadata := meta; usage := use; finished := fin |}
    | inr f =>
        Return {| id := id st; texts := texts st; media := media st;
                  pending := <[i := match pending st !! i with
                                    | Some g => merge_call g f
                                    | None => f
                                    end]> (pending st);
                  next := next st;
                  metadata := meta; usage := use; finished := fin |}
    end.

(** Modelled from the spec: the left-to-right fold of [step] over the chunk
    sequence, stopping at the first error; the package has no such code. *)
Fixpoint fold (st : state) (chunks : list ChatStreamResponse.t) : result state :=
  match chunks with
  | [] => Return st
  | c :: chunks' =>
      match step st c with
      | Return st' => fold st' chunks'
      | Raise e => Raise e
      end
  end.

Definition text_part (s : string) : Content.t := Content.Build TEXT (Some s) None.

(** Modelled from the spec: the parts the folded state holds at content
    index [i]: the text part, when text deltas arrived for [i], then the
    parts of another type that arrived for [i]. *)
Definition parts_at (st : state) (i : nat) : list Content.t :=
  match texts st !! i with
  | Some s => [text_part s]
  | None => []
  end ++ default [] (media st !! i).

(** Modelled from the spec: the aggregate response built from the folded
    state, absent from the package: the parts of every content index, by
    ascending index, so that a media part that precedes a text part in the
    completion precedes it in the response. *)
Definition finish (st : state) : ChatResponse.t :=
  {| ChatResponse.id := id st;
     ChatResponse.content := flat_map (parts_at st) (seq 0 (next st));
     ChatResponse.function_calls :=
       if bool_decide (pending st = ∅) then None
       else Some (map snd (map_to_list (pending st)));
     ChatResponse.metadata :=
       {| ResponseMetadata.model :=
            match metadata st with
            | Some m => ResponseMetadata.model m
            | None => ChatRequest.model request
            end;
          ResponseMetadata.usage := usage st;
          ResponseMetadata.finish_reason :=
            metadata st ≫= ResponseMetadata.finish_reason;
          ResponseMetadata.raw_response := None |} |}.

(** Modelled from the spec: the entry point of the Stream Reconstructor,
    which the package does not contain.  An empty sequence is the "no
    response" case of section 5, a Provider error. *)
Definition reconstruct (chunks : list ChatStreamResponse.t) : result ChatResponse.t :=
  match chunks with
  | [] => Raise (LLMError Provider "no response" provider None None)
  | c :: _ =>
      match fold (initial (ChatStreamResponse.id c)) chunks with
      | Return st => Return (finish st)
      | Raise e => Raise e
      end
  end.

(** *** What a chunk sequence says, read off the sequence itself *)

(** The text that chunk [c] contributes to content index [i]. *)
Definition text_delta (i : nat) (c : ChatStreamResponse.t) : string :=
  match ChatStreamResponse.delta c with
  | inl p => if is_text p && bool_decide (content_index c = i) then text_of p else ""
  | inr _ => ""
  end.

(** The text deltas of index [i], concatenated in arrival order. *)
Definition streamed_text (chunks : list ChatStreamResponse.t) (i : nat) : string :=
  foldr (λ c rest, text_delta i c +:+ rest) "" chunks.

(** The usage of the final chunk that reports one. *)
Definition final_usage (chunks : list ChatStreamResponse.t) : option Usage.t :=
  last (omap reported_usage chunks).

(** Whether some text delta of the sequence belongs to index [i]. *)
Definition has_text (chunks : list ChatStreamResponse.t) (i : nat) : bool :=
  existsb (λ c, match ChatStreamResponse.delta c with
                | inl p => is_text p && bool_decide (content_index c = i)
                | inr _ => false
                end) chunks.

(** The number of content indices the content deltas span. *)
Definition content_indices (chunks : list ChatStreamResponse.t) : nat :=
  foldr (λ c n,
           match ChatStreamResponse.delta c with
           | inl _ => n `max` S (content_index c)
           | inr _ => n
           end) 0 chunks.

(** Modelled from the spec: the concatenated text content of the sequence,
    "text deltas concatenated in arrival order per content index": for
    every content index that received text deltas, by ascending index,
    those deltas concatenated in arrival order. *)
Definition stream_texts (chunks : list ChatStreamResponse.t) : list string :=
  omap (λ i, if has_text chunks i then Some (streamed_text chunks i) else None)
       (seq 0 (content_indices chunks)).

(** No terminal chunk follows another terminal chunk. *)
Fixpoint single_terminal (seen : bool) (chunks : list ChatStreamResponse.t) : bool :=
  match chunks with
  | [] => true
  | c :: chunks' =>
      negb (seen && ChatStreamResponse.done c)
      && single_terminal (seen || ChatStreamResponse.done c) chunks'
  end.

End Fold.

(** The text of a content part, when it is a text part. *)
Definition part_text (p : Content.t) : option string :=
  if is_text p then Some (text_of p) else None.

(** Modelled from the spec: the text content of a response, the texts of
    its text parts in the order of the parts.  Parts of another type,
    wherever they stand, are passed over. *)
Definition response_texts (r : ChatResponse.t) : list string :=
  omap part_text (ChatResponse.content r).

Definition usage_of (r : ChatResponse.t) : option Usage.t :=
  ResponseMetadata.usage (ChatResponse.metadata r).

End StreamReconstructor.

(** ** Notions used to state the properties *)

(** The exception that the transport call on request [r], or the conversion
    of what it returned, raises inside the [try] block; [None] when both
    succeed. *)
Definition failure_in_transport (cap : Capability) (env : Env)
    (p : Adapter cap) (request : Request cap) (r : HttpRequest.t) : option exn :=
  match make_request env r with
  | Raise e => Some e
  | Return raw =>
      match convert_resp cap p raw request with
      | Raise e => Some e
      | Return _ => None
      end
  end.

(** A valid configuration: [self.api_key] is bound to a non-empty string. *)
Definition configured {P : Type} (self : Repository P) : bool :=
  match api_key self with
  | Bound k => truthy k
  | Missing => false
  end.

(** ** Concrete inputs *)

Definition hello_request : ChatRequest.t :=
  {| ChatRequest.model := "m1";
     ChatRequest.messages :=
       [ {| Message.role := USER;
            Message.content := [Content.Build TEXT (Some "hi") None];
            Message.name := None;
            Message.function_call := None |} ];
     ChatRequest.config := GenerationConfig.default |}.

Definition five_tokens : Usage.t :=
  {| Usage.prompt_tokens := Some 3%Z; Usage.completion_tokens := Some 2%Z;
     Usage.total_tokens := Some 5%Z; Usage.audio_duration := None;
     Usage.total_dimensions := None |}.

Definition hello_response : ChatResponse.t :=
  {| ChatResponse.id := "chatcmpl-1";
     ChatResponse.content := [Content.Build TEXT (Some "hello") None];
     ChatResponse.function_calls := None;
     ChatResponse.metadata :=
       {| ResponseMetadata.model := "m1";
          ResponseMetadata.usage := Some five_tokens;
          ResponseMetadata.finish_reason := Some "stop";
          ResponseMetadata.raw_response := None |} |}.

(** An adapter that accepts every request and files every failure under
    the generic Provider class, keeping the raw error. *)
Definition accepting_adapter : ChatProvider.t :=
  {| ChatProvider.name := "openai";
     ChatProvider.supported_content_types := {[ TEXT ]};
     ChatProvider.supports_functions := true;
     ChatProvider.supports_json_response := true;
     ChatProvider.validate_chat_request := λ _, Return [];
     ChatProvider.convert_chat_request :=
       λ r, Return (VDict {[ "model" := VStr (ChatRequest.model r) ]});
     ChatProvider.convert_chat_response := λ _ _, Return hello_response;
     ChatProvider.convert_chat_stream :=
       λ _ _, Raise (NotImplementedError "streaming");
     ChatProvider.convert_error :=
       λ e, Return (LLMError Provider "provider error" "openai" None (Some e)) |}.

(** The same adapter, except that it finds one problem in every request. *)
Definition rejecting_adapter : ChatProvider.t :=
  {| ChatProvider.name := "openai";
     ChatProvider.supported_content_types := {[ TEXT ]};
     ChatProvider.supports_functions := false;
     ChatProvider.supports_json_response := true;
     ChatProvider.validate_chat_request :=
       λ _, Return ["function calling not supported by this provider"];
     ChatProvider.convert_chat_request :=
       λ r, Return (VDict {[ "model" := VStr (ChatRequest.model r) ]});
     ChatProvider.convert_chat_response := λ _ _, Return hello_response;
     ChatProvider.convert_chat_stream :=
       λ _ _, Raise (NotImplementedError "streaming");
     ChatProvider.convert_error :=
       λ e, Return (LLMError Provider "provider error" "openai" None (Some e)) |}.

(** An adapter whose [convert_error] files a missing credential under the
    Configuration class. *)
Definition credential_adapter : ChatProvider.t :=
  {| ChatProvider.name := "openai";
     ChatProvider.supported_content_types := {[ TEXT ]};
     ChatProvider.supports_functions := true;
     ChatProvider.supports_json_response := true;
     ChatProvider.validate_chat_request := λ _, Return [];
     ChatProvider.convert_chat_request :=
       λ r, Return (VDict {[ "model" := VStr (ChatRequest.model r) ]});
     ChatProvider.convert_chat_response := λ _ _, Return hello_response;
     ChatProvider.convert_chat_stream :=
       λ _ _, Raise (NotImplementedError "streaming");
     ChatProvider.convert_error :=
       λ e, match e with
            | AttributeError _ =>
                Return (LLMError Configuration "credentials not set" "openai"
                          None (Some e))
            | _ => Return (LLMError Provider "provider error" "openai" None (Some e))
            end |}.

Definition no_settings : settings.llms :=
  settings.Build None None None None None None.

(** The transport answers; the capability check passes. *)
Definition env_up : Env :=
  {| llms := no_settings;
     make_request := λ _, Return (VDict {[ "id" := VStr "chatcmpl-1" ]});
     isinstance_provider := Return true |}.

(** The transport fails to connect. *)
Definition env_down : Env :=
  {| llms := no_settings;
     make_request := λ _, Raise (OtherException "ConnectError" "connection refused");
     isinstance_provider := Return true |}.

(** What [isinstance(self.provider, capabilities.ChatProvider)] raises:
    [ChatProvider] and its siblings are [typing.Protocol] classes without
    the [runtime_checkable] decorator. *)
Definition protocol_check_error : exn :=
  TypeError
    "Instance and class checks can only be used with @runtime_checkable protocols".

(** The transport answers; the capability check does what the interpreter
    does with the protocols of models/capabilities.py. *)
Definition env_protocol : Env :=
  {| llms := no_settings;
     make_request := λ _, Return (VDict {[ "id" := VStr "chatcmpl-1" ]});
     isinstance_provider := Raise protocol_check_error |}.

(** [OpenAIChatRepository(provider)] as repositories/base.py constructs it. *)
Definition openai_repository (p : ChatProvider.t) : Repository ChatProvider.t :=
  {| class := OpenAI; response_model := "ChatCompletionResponse";
     provider := p; api_key := Missing; version := "" |}.

(** The same object once [api_key] has been assigned. *)
Definition openai_repository_with_key (p : ChatProvider.t) (k : string)
  : Repository ChatProvider.t :=
  {| class := OpenAI; response_model := "ChatCompletionResponse";
     provider := p; api_key := Bound (Some k); version := "" |}.



Definition no_repositories : llm.LLMService :=
  {| llm.chat_repo := None; llm.embedding_repo := None; llm.speech_repo := None |}.

Definition text_chunk (s : string) (meta : option ResponseMetadata.t) (done : bool)
  : ChatStreamResponse.t :=
  {| ChatStreamResponse.id := "chatcmpl-1";
     ChatStreamResponse.delta := inl (Content.Build TEXT (Some s) None);
     ChatStreamResponse.metadata := meta;
     ChatStreamResponse.done := done |}.

(** The completion [hello_response], streamed in two chunks. *)
Definition hello_chunks : list ChatStreamResponse.t :=
  [ text_chunk "hel" None false;
    text_chunk "lo" (Some (ChatResponse.metadata hello_response)) true ].

(** A part that is not text. *)
Definition picture : Content.t :=
  Content.Build IMAGE None
    (Some (MediaSource.Build IMAGE "image/png" None
             (Some "https://example.com/cat.png") None)).

(** A completion that opens with a picture and goes on with text. *)
Definition illustrated_response : ChatResponse.t :=
  {| ChatResponse.id := "chatcmpl-2";
     ChatResponse.content := [picture; Content.Build TEXT (Some "abc") None];
     ChatResponse.function_calls := None;
     ChatResponse.metadata :=
       {| ResponseMetadata.model := "m1";
          ResponseMetadata.usage := Some five_tokens;
          ResponseMetadata.finish_reason := Some "stop";
          ResponseMetadata.raw_response := None |} |}.

Definition content_chunk (p : Content.t) (meta : option ResponseMetadata.t)
    (done : bool) : ChatStreamResponse.t :=
  {| ChatStreamResponse.id := "chatcmpl-2";
     ChatStreamResponse.delta := inl p;
     ChatStreamResponse.metadata := meta;
     ChatStreamResponse.done := done |}.

(** [illustrated_response] streamed: the picture at content index 0, then
    the text of content index 1 in two deltas. *)
Definition illustrated_chunks : list ChatStreamResponse.t :=
  [ content_chunk picture None false;
    content_chunk (Content.Build TEXT (Some "a") None) None false;
    content_chunk (Content.Build TEXT (Some "bc") None)
      (Some (ChatResponse.metadata illustrated_response)) true ].

(** The content index of the chunks of [illustrated_chunks]. *)
Definition illustrated_index (c : ChatStreamResponse.t) : nat :=
  match ChatStreamResponse.delta c with
  | inl p => if StreamReconstructor.is_text p then 1 else 0
  | inr _ => 0
  end.

Definition example_log : gmap string value :=
  {[ "user" := VStr "bob";
     "config" := VDict {[ "API_KEY" := VStr "s3cr3t";
                          "items" := VList [VDict {[ "token" := VStr "t" ]}] ]} ]}.

(** ** Further notions and inputs *)

(** The depth-weighted size of a value: dictionaries count their entries'
    values, everything else counts one.  It is the measure along which
    statements about [mask_value] are proved. *)
Fixpoint value_size (v : value) : nat :=
  match v with
  | VDict d => S (map_fold (λ _ v' n, value_size v' + n) 0 d)
  | _ => 1
  end.

(** Two values that differ at most in what they hold under sensitive keys
    of dictionaries nested directly in dictionaries: such dictionaries have
    the same keys and, under every key that is not sensitive, values
    related in the same way; anything else is related to itself only. *)
Inductive low_equiv (lower : string → string) : value → value → Prop :=
| low_equiv_same v : low_equiv lower v v
| low_equiv_dict d1 d2 :
    dom d1 = dom d2 →
    (∀ k v1 v2, sensitive lower k = false →
       d1 !! k = Some v1 → d2 !! k = Some v2 → low_equiv lower v1 v2) →
    low_equiv lower (VDict d1) (VDict d2).

(** A value in which no dictionary reached through dictionaries has a
    sensitive key. *)
Inductive no_sensitive_key (lower : string → string) : value → Prop :=
| no_sensitive_key_atom v : (∀ d, v ≠ VDict d) → no_sensitive_key lower v
| no_sensitive_key_dict d :
    (∀ k v, d !! k = Some v → sensitive lower k = false) →
    (∀ k v, d !! k = Some v → no_sensitive_key lower v) →
    no_sensitive_key lower (VDict d).

(** The setting that [_get_api_key] of each class reads. *)
Definition setting_of (c : RepoClass) (s : settings.llms) : option string :=
  match c with
  | Plain _ _ => None
  | OpenAI => settings.openai_api_key s
  | Anthropic => settings.anthropic_api_key s
  | Gemini => settings.gemini_api_key s
  end.

(** Its name in [settings.llms]. *)
Definition setting_name (c : RepoClass) : string :=
  match c with
  | Plain _ _ => ""
  | OpenAI => "openai_api_key"
  | Anthropic => "anthropic_api_key"
  | Gemini => "gemini_api_key"
  end.

(** The capability check answers no. *)
Definition env_unsupported : Env :=
  {| llms := no_settings;
     make_request := λ _, Return (VDict {[ "id" := VStr "chatcmpl-1" ]});
     isinstance_provider := Return false |}.

(** An adapter whose [validate] itself fails. *)
Definition failing_adapter : ChatProvider.t :=
  {| ChatProvider.name := "openai";
     ChatProvider.supported_content_types := {[ TEXT ]};
     ChatProvider.supports_functions := true;
     ChatProvider.supports_json_response := true;
     ChatProvider.validate_chat_request :=
       λ _, Raise (OtherException "KeyError" "model");
     ChatProvider.convert_chat_request :=
       λ r, Return (VDict {[ "model" := VStr (ChatRequest.model r) ]});
     ChatProvider.convert_chat_response := λ _ _, Return hello_response;
     ChatProvider.convert_chat_stream :=
       λ _ _, Raise (NotImplementedError "streaming");
     ChatProvider.convert_error :=
       λ e, Return (LLMError Provider "provider error" "openai" None (Some e)) |}.

(** The request [openai_repository_with_key accepting_adapter "sk-test"]
    sends for [hello_request]. *)
Definition openai_hello_request : HttpRequest.t :=
  {| HttpRequest.url := "https://api.openai.com/v1/chat/completions";
     HttpRequest.method := "POST";
     HttpRequest.headers :=
       {[ "Authorization" := VStr "Bearer sk-test";
          "Content-Type" := VStr "application/json";
          "OpenAI-Organization" := VStr "" ]};
     HttpRequest.params := None;
     HttpRequest.body := VDict {[ "model" := VStr "m1" ]};
     HttpRequest.model := "ChatCompletionResponse" |}.





(** Two log payloads that differ in their secrets only. *)
Definition login_log (password token : string) : gmap string value :=
  {[ "user" := VStr "bob";
     "Password" := VStr password;
     "session" := VDict {[ "TOKEN" := VStr token; "ttl" := VInt 60 ]} ]}.

(** * Properties *)

Set Warnings "-clear-no-such-hyp".

(** ** Masking *)

Section MaskingFacts.
Variable lower : string → string.

Lemma mask_value_dict d :
  mask_value lower (VDict d) = VDict (mask_sensitive_data lower d).
Proof. reflexivity. Qed.

(** One level: the masked dict has the keys of the input, a sensitive key
    holds the mask, any other key holds its value with dicts masked in
    turn. *)
Lemma mask_lookup d k :
  mask_sensitive_data lower d !! k
  = (λ v, if sensitive lower k then VStr "***" else mask_value lower v) <$> d !! k.
Proof.
  unfold mask_sensitive_data, _mask_dict. rewrite map_lookup_imap.
  by destruct (d !! k).
Qed.

Lemma mask_dom d : dom (mask_sensitive_data lower d) = dom d.
Proof.
  apply set_eq. intros k. rewrite !elem_of_dom, mask_lookup.
  by rewrite fmap_is_Some.
Qed.

Lemma lookup_path_clean p : ∀ v,
  Forall (λ k, sensitive lower k = false) p →
  lookup_path p (mask_value lower v) = mask_value lower <$> lookup_path p v.
Proof.
  induction p as [|k p IH]; intros v Hp; [done|].
  inversion_clear Hp as [|?? Hk Hp'].
  destruct v; try done.
  cbn [lookup_path]. rewrite mask_value_dict. cbn [lookup_path].
  rewrite mask_lookup, Hk.
  destruct (d !! k) as [v'|]; [|done]. cbn. by apply IH.
Qed.

Lemma lookup_path_snoc p k : ∀ v,
  lookup_path (p ++ [k]) v
  = lookup_path p v ≫= λ w, match w with VDict d => d !! k | _ => None end.
Proof.
  induction p as [|k' p IH]; intros v; cbn.
  - destruct v; try done. by destruct (d !! k).
  - destruct v; try done. destruct (d !! k'); [|done]. cbn. apply IH.
Qed.
End MaskingFacts.

(** Claim C10.  For every input dictionary, [mask_sensitive_data] puts the
    mask in place of the value of every key whose lower-cased name is one of
    the five sensitive names, at every depth of dictionaries nested directly
    in dictionaries (a path of keys none of which is sensitive, followed by
    a sensitive key); every entry reached through keys that are not
    sensitive is unchanged when it is not a dictionary, and is the masked
    dictionary when it is one; a list is returned as it is, whatever it
    contains, so a sensitive key inside a list keeps its value. *)
Theorem mask_sensitive_data_spec (lower : string → string) (data : gmap string value) :
  (∀ p k, Forall (λ k', sensitive lower k' = false) p → sensitive lower k = true →
     lookup_path (p ++ [k]) (VDict (mask_sensitive_data lower data))
     = (λ _, VStr "***") <$> lookup_path (p ++ [k]) (VDict data))
  ∧ (∀ p, Forall (λ k', sensitive lower k' = false) p →
     lookup_path p (VDict (mask_sensitive_data lower data))
     = (λ v, match v with
             | VDict d => VDict (mask_sensitive_data lower d)
             | _ => v
             end) <$> lookup_path p (VDict data))
  ∧ (∀ l, mask_value lower (VList l) = VList l).
Proof.
  split; [|split].
  - intros p k Hp Hk. rewrite <- mask_value_dict, !lookup_path_snoc.
    rewrite lookup_path_clean by done.
    destruct (lookup_path p (VDict data)) as [w|]; [|done]. cbn.
    destruct w; try done. rewrite mask_value_dict, mask_lookup, Hk.
    by destruct (d !! k).
  - intros p Hp. rewrite <- mask_value_dict, lookup_path_clean by done.
    destruct (lookup_path p (VDict data)) as [w|]; [|done]. cbn.
    by destruct w.
  - done.
Qed.

(** On [example_log]: the key [API_KEY] under [config] is masked, the list
    under [items] keeps the token of the dictionary it holds. *)
Lemma mask_sensitive_data_spec_witness :
  lookup_path ["config"; "API_KEY"]
    (VDict (mask_sensitive_data ascii_lower example_log)) = Some (VStr "***")
  ∧ lookup_path ["config"; "items"]
      (VDict (mask_sensitive_data ascii_lower example_log))
    = Some (VList [VDict {[ "token" := VStr "t" ]}]).
Proof.
  destruct (mask_sensitive_data_spec ascii_lower example_log) as (H1 & H2 & _).
  split.
  - refine (eq_trans (H1 ["config"] "API_KEY" _ _) _);
      [repeat constructor | reflexivity | reflexivity].
  - refine (eq_trans (H2 ["config"; "items"] _) _);
      [repeat constructor | reflexivity].
Defined.

(** ** MediaSource *)

(** Claim C4, at two inputs it says are rejected:
    [MediaSource(type=IMAGE, mime_type="image/png")], with none of the three
    source fields set, and the same call with both [data] and [url] given.
    The model accepts both and stores the fields as given, zero of them set
    in the first value and two in the second.  The class declares the three
    fields as independent optional fields under the comment "One of the
    following should be provided" and has no validator for it. *)
Theorem MediaSource_accepts_none_and_two :
  (MediaSource_init (MediaSource_kwargs IMAGE "image/png" None None None)
   = Accepted (MediaSource.Build IMAGE "image/png" None None None)
   ∧ sources_set (MediaSource.Build IMAGE "image/png" None None None) = 0)
  ∧ (MediaSource_init
       (MediaSource_kwargs IMAGE "image/png" (Some "aGk=")
          (Some "https://example.com/a.png") None)
     = Accepted (MediaSource.Build IMAGE "image/png" (Some "aGk=")
                   (Some "https://example.com/a.png") None)
     ∧ sources_set (MediaSource.Build IMAGE "image/png" (Some "aGk=")
                      (Some "https://example.com/a.png") None) = 2).
Proof. repeat split; reflexivity. Qed.

(** Nothing in the model looks at how many source fields are set: for every
    content type, MIME type and every choice of which of [data], [url] and
    [path] are given, the value is accepted and the fields stored as
    given. *)
Lemma MediaSource_init_accepts (t : ContentType) (m : string)
    (d u p : option string) :
  MediaSource_init (MediaSource_kwargs t m d u p)
  = Accepted (MediaSource.Build t m d u p).
Proof. destruct t, d, u, p; reflexivity. Qed.

(** What the model does reject: an undeclared key, a missing [type]. *)
Lemma MediaSource_init_rejects :
  MediaSource_init {[ "type" := VStr "image"; "mime_type" := VStr "image/png";
                      "uri" := VStr "gs://bucket/a.png" ]}
  = Rejected ["extra_forbidden"]
  ∧ MediaSource_init {[ "mime_type" := VStr "image/png" ]} = Rejected ["type"].
Proof. split; reflexivity. Qed.

(** ** The service facade *)

(** With no repository at all, [complete] raises the built-in
    [NotImplementedError], which is no [UnsupportedOperationError] and no
    [LLMError] of any class. *)
Lemma service_without_repository_raises_builtin :
  run (llm.complete no_repositories hello_request)
  = (Raise (NotImplementedError "Chat completion not supported"), [])
  ∧ isinstance_exn (NotImplementedError "Chat completion not supported")
      UnsupportedOperation = false
  ∧ is_LLMError (NotImplementedError "Chat completion not supported") = false.
Proof. repeat split; reflexivity. Qed.

(** Claim C5, amended.  For every service whose chat (respectively
    embedding, speech) repository is absent, [complete] (respectively
    [embed], [synthesize]) raises the built-in [NotImplementedError] with
    the message of its capability, which lies outside the [LLMError]
    taxonomy, and nothing is called: the trace is the one the call started
    from. *)
Theorem service_without_repository (self : llm.LLMService) (t : trace) :
  (∀ request, llm.chat_repo self = None →
     llm.complete self request t
     = (Raise (NotImplementedError "Chat completion not supported"), t))
  ∧ (∀ request, llm.embedding_repo self = None →
     llm.embed self request t
     = (Raise (NotImplementedError "Embeddings not supported"), t))
  ∧ (∀ request, llm.speech_repo self = None →
     llm.synthesize self request t
     = (Raise (NotImplementedError "Speech synthesis not supported"), t))
  ∧ (∀ message, is_LLMError (NotImplementedError message) = false).
Proof.
  unfold llm.complete, llm.embed, llm.synthesize.
  repeat split; try done; by intros ? ->.
Qed.

Lemma service_without_repository_witness :
  llm.complete no_repositories hello_request []
  = (Raise (NotImplementedError "Chat completion not supported"), []).
Proof.
  destruct (service_without_repository no_repositories []) as (H & _).
  apply H. reflexivity.
Defined.

(** With a repository present the service hands the request over, as
    positional argument, and returns whatever the repository does. *)
Lemma service_delegates (self : llm.LLMService) repo request :
  llm.chat_repo self = Some repo → llm.complete self request = repo request.
Proof. unfold llm.complete. by intros ->. Qed.

(** ** The dispatchers *)

Local Arguments String.concat : simpl never.

Ltac unfold_M :=
  unfold run, base.complete, base.embed, base.synthesize, base.dispatch,
    base.__init__, base_new.__init__, base_new.BaseLLMRepository__init__,
    _get_api_key, base_new.complete, base_new.embed, base_new.synthesize,
    base_new.dispatch, base_new.dispatch_body, gemini.complete, gemini.embed,
    gemini.dispatch, gemini.dispatch_body, log_operation, RequestLogger,
    _validate_configuration, fetch, try_except, call, lift, raise, log,
    mbind, mret, M_bind, M_ret, bind, ret in *.

(** Case analysis on the outcome of every call the computation makes. *)
Ltac cases := repeat (case_match; simplify_eq/=).

Ltac mem_inv :=
  repeat match goal with
    | H : _ ∈ [] |- _ => by apply elem_of_nil in H
    | H : _ ∈ _ :: _ |- _ => apply elem_of_cons in H as [H|H]; simplify_eq/=
    end.

Ltac merge_eqs :=
  repeat match goal with
    | H1 : ?x = _, H2 : ?x = _ |- _ => rewrite H1 in H2; simplify_eq/=
    end.

Ltac use_eqs :=
  repeat match goal with
    | H : ?x = _ |- context [?x] => rewrite H; cbn
    end.

Ltac solve_trace :=
  cases; mem_inv; merge_eqs; use_eqs; try done;
  try (split; [done|]); set_solver.

(** *** Construction *)

Lemma base_init_result {P : Type} c rm (p : P) t :
  base.__init__ c rm p t
  = (Return {| class := c; response_model := rm; provider := p;
               api_key := Missing; version := "" |}, t).
Proof. reflexivity. Qed.

Lemma openai_repository_constructed p :
  run (base.__init__ OpenAI "ChatCompletionResponse" p)
  = (Return (openai_repository p), []).
Proof. reflexivity. Qed.

(** The constructor of base_new.py looks the key up when none is given;
    when the settings have none, the mixin's [raise ConfigurationError(...)]
    fails on the name itself. *)
Lemma base_new_init_looks_up (p : ChatProvider.t) :
  run (base_new.__init__ env_up OpenAI "ChatCompletionResponse" p None)
  = (Raise (OtherException "NameError" "name 'ConfigurationError' is not defined"),
     [EvSettings "openai_api_key"]).
Proof. reflexivity. Qed.

Lemma base_new_init_configured env c rm {P : Type} (p : P) k out t :
  run (base_new.__init__ env c rm p k) = (Return out, t) → configured out = true.
Proof.
  unfold_M. unfold configured. intros H.
  destruct k as [k|]; cbn in H; cases; cbn; try done;
    match goal with
    | H : negb (String.eqb ?s "") = true |- _ => by rewrite H
    | H : truthy ?s = true |- _ => by destruct s
    | _ => idtac
    end.
Qed.

(** *** Validation failures *)

(** repositories/base.py: a non-empty validation result stops the dispatch
    after the one call of [validate], and what is raised is the built-in
    [ValueError] carrying the list. *)
Lemma base_dispatch_invalid cap env self request errors t :
  validate cap (provider self) request = Return errors → errors ≠ [] →
  base.dispatch cap env self request t
  = (Raise (ValueError errors), t ++ [EvAdapter validate_request])
  ∧ is_LLMError (ValueError errors) = false.
Proof.
  intros Hv Hne. unfold_M. rewrite Hv. by destruct errors.
Qed.

(** repositories/base_new.py, on the same condition: a [ValidationError]. *)
Lemma base_new_dispatch_invalid cap env self request errors t :
  configured self = true → isinstance_provider env = Return true →
  validate cap (provider self) request = Return errors → errors ≠ [] →
  base_new.dispatch cap env positional self request t
  = (Raise (ValidationError ("Invalid request: " +:+ String.concat ", " errors)
              (provider_name (class self))),
     t ++ [EvAdapter validate_request; EvLog ERROR "Request failed"]).
Proof.
  unfold configured. intros Hc Hi Hv Hne. unfold_M. unfold get_api_key.
  cbn. destruct (api_key self); [done|]. rewrite Hc, Hi, Hv. cbn.
  destruct errors; [done|]. cbn. by rewrite <- app_assoc.
Qed.

(** repositories/gemini.py does as base_new.py does. *)
Lemma gemini_dispatch_invalid cap action env self request errors t :
  configured self = true → isinstance_provider env = Return true →
  validate cap (provider self) request = Return errors → errors ≠ [] →
  gemini.dispatch cap action env positional self request t
  = (Raise (ValidationError ("Invalid request: " +:+ String.concat ", " errors)
              (provider_name (class self))),
     t ++ [EvAdapter validate_request; EvLog ERROR "Request failed"]).
Proof.
  unfold configured. intros Hc Hi Hv Hne. unfold_M. unfold get_api_key.
  cbn. destruct (api_key self); [done|]. rewrite Hc, Hi, Hv. cbn.
  destruct errors; [done|]. cbn. by rewrite <- app_assoc.
Qed.

(** Claim C1 says that a non-empty validation result makes [complete] raise
    a Validation error of the taxonomy, with neither the request converter
    nor the transport called.  On a repository of repositories/base.py whose
    adapter reports one problem, [complete] does stop after [validate], but
    what it raises is [ValueError] with the list of problems, which is no
    [LLMError]; the variant of repositories/base_new.py raises the
    [ValidationError] on the same adapter and request. *)
Theorem base_complete_raises_ValueError :
  run (base.complete env_up (openai_repository rejecting_adapter) hello_request)
  = (Raise (ValueError ["function calling not supported by this provider"]),
     [EvAdapter validate_request])
  ∧ is_LLMError (ValueError ["function calling not supported by this provider"])
    = false
  ∧ run (base_new.complete env_up positional
           (openai_repository_with_key rejecting_adapter "sk-test") hello_request)
    = (Raise (ValidationError
                "Invalid request: function calling not supported by this provider"
                "openai"),
       [EvAdapter validate_request; EvLog ERROR "Request failed"]).
Proof. repeat split; reflexivity. Qed.

(** *** Failures of the transport *)

Lemma base_dispatch_maps cap env self request out t r e :
  run (base.dispatch cap env self request) = (out, t) →
  EvTransport r ∈ t →
  failure_in_transport cap env (provider self) request r = Some e →
  out = Raise (escaping (convert_err cap (provider self) e))
  ∧ EvAdapter (convert_error e) ∈ t.
Proof.
  unfold failure_in_transport. unfold_M. cbn.
  intros Hrun Hin Hfail. solve_trace.
Qed.

Lemma base_new_dispatch_maps cap env style self request out t r e :
  run (base_new.dispatch cap env style self request) = (out, t) →
  EvTransport r ∈ t →
  failure_in_transport cap env (provider self) request r = Some e →
  out = Raise (escaping (convert_err cap (provider self) e))
  ∧ EvAdapter (convert_error e) ∈ t.
Proof.
  unfold failure_in_transport. unfold_M. cbn.
  intros Hrun Hin Hfail. destruct style; cbn in *; solve_trace.
Qed.

Lemma gemini_dispatch_maps cap action env style self request out t r e :
  run (gemini.dispatch cap action env style self request) = (out, t) →
  EvTransport r ∈ t →
  failure_in_transport cap env (provider self) request r = Some e →
  out = Raise (escaping (convert_err cap (provider self) e))
  ∧ EvAdapter (convert_error e) ∈ t.
Proof.
  unfold failure_in_transport. unfold_M. cbn.
  intros Hrun Hin Hfail. destruct style; cbn in *; solve_trace.
Qed.

(** Claim C2.  In every dispatcher ([complete], [embed] and [synthesize] of
    repositories/base.py and base_new.py, [complete] and [embed] of
    gemini.py, all instances of the three [dispatch] bodies), whenever the
    transport was called and either it or the conversion of its raw response
    raised an exception [e], [convert_error] was called on [e] and what
    leaves the dispatcher is what that call produced: the exception it
    returned (or the one it raised itself).  The exception [e] does not
    leave unmapped. *)
Theorem transport_errors_are_mapped (cap : Capability) (env : Env)
    (self : Repository (Adapter cap)) (request : Request cap)
    (r : HttpRequest.t) (e : exn) :
  failure_in_transport cap env (provider self) request r = Some e →
  (EvTransport r ∈ (run (base.dispatch cap env self request)).2 →
     (run (base.dispatch cap env self request)).1
     = Raise (escaping (convert_err cap (provider self) e))
     ∧ EvAdapter (convert_error e) ∈ (run (base.dispatch cap env self request)).2)
  ∧ (∀ style,
       EvTransport r ∈ (run (base_new.dispatch cap env style self request)).2 →
       (run (base_new.dispatch cap env style self request)).1
       = Raise (escaping (convert_err cap (provider self) e))
       ∧ EvAdapter (convert_error e)
         ∈ (run (base_new.dispatch cap env style self request)).2)
  ∧ (∀ style action,
       EvTransport r ∈ (run (gemini.dispatch cap action env style self request)).2 →
       (run (gemini.dispatch cap action env style self request)).1
       = Raise (escaping (convert_err cap (provider self) e))
       ∧ EvAdapter (convert_error e)
         ∈ (run (gemini.dispatch cap action env style self request)).2).
Proof.
  intros Hfail. split; [|split].
  - destruct (run (base.dispatch cap env self request)) as [out t] eqn:Hrun.
    intros Hin. by eapply base_dispatch_maps.
  - intros style.
    destruct (run (base_new.dispatch cap env style self request))
      as [out t] eqn:Hrun.
    intros Hin. by eapply base_new_dispatch_maps.
  - intros style action.
    destruct (run (gemini.dispatch cap action env style self request))
      as [out t] eqn:Hrun.
    intros Hin. by eapply gemini_dispatch_maps.
Qed.

(** The transport refuses the connection: what [complete] raises is the
    Provider error [convert_error] made of the refusal. *)
Lemma transport_errors_are_mapped_witness :
  (run (base.complete env_down
          (openai_repository_with_key accepting_adapter "sk-test")
          hello_request)).1
  = Raise (LLMError Provider "provider error" "openai" None
             (Some (OtherException "ConnectError" "connection refused"))).
Proof.
  destruct (transport_errors_are_mapped chat env_down
              (openai_repository_with_key accepting_adapter "sk-test")
              hello_request
              {| HttpRequest.url := "https://api.openai.com/v1/chat/completions";
                 HttpRequest.method := "POST";
                 HttpRequest.headers :=
                   {[ "Authorization" := VStr "Bearer sk-test";
                      "Content-Type" := VStr "application/json";
                      "OpenAI-Organization" := VStr "" ]};
                 HttpRequest.params := None;
                 HttpRequest.body := VDict {[ "model" := VStr "m1" ]};
                 HttpRequest.model := "ChatCompletionResponse" |}
              (OtherException "ConnectError" "connection refused")
              eq_refl) as (H & _).
  apply H. vm_compute. do 2 right. left.
Defined.

(** *** The configuration check *)

(** repositories/base_new.py and gemini.py: with the key unset or empty, a
    call that passes the request positionally raises [ConfigurationError]
    before anything else happens; the only record in the trace is the one
    the request logger writes on the way out. *)
Lemma base_new_dispatch_unconfigured cap env self request k t :
  api_key self = Bound k → truthy k = false →
  base_new.dispatch cap env positional self request t
  = (Raise (ConfigurationError
              ("API key not configured for " +:+ provider_name (class self))
              (provider_name (class self))),
     t ++ [EvLog ERROR "Request failed"]).
Proof.
  intros Hk Hf. unfold_M. unfold get_api_key. cbn. by rewrite Hk, Hf.
Qed.

Lemma gemini_dispatch_unconfigured cap action env self request k t :
  api_key self = Bound k → truthy k = false →
  gemini.dispatch cap action env positional self request t
  = (Raise (ConfigurationError
              ("API key not configured for " +:+ provider_name (class self))
              (provider_name (class self))),
     t ++ [EvLog ERROR "Request failed"]).
Proof.
  intros Hk Hf. unfold_M. unfold get_api_key. cbn. by rewrite Hk, Hf.
Qed.

(** repositories/base.py never looks at the key before it validates and
    converts; on an OpenAI repository whose key was never assigned, reading
    it for the headers fails inside the [try] block and is handed to
    [convert_error]. *)
Lemma base_dispatch_missing_key cap env self request body :
  class self = OpenAI → api_key self = Missing →
  validate cap (provider self) request = Return [] →
  convert_req cap (provider self) request = Return body →
  run (base.dispatch cap env self request)
  = (Raise (escaping (convert_err cap (provider self) (AttributeError "api_key"))),
     [EvAdapter validate_request; EvAdapter convert_request;
      EvAdapter (convert_error (AttributeError "api_key"))]).
Proof.
  intros Hc Hk Hv Hb. unfold_M. unfold _get_headers, get_api_key.
  rewrite Hv, Hb, Hc, Hk. cbn.
  by destruct (convert_err cap (provider self) (AttributeError "api_key")).
Qed.

(** Claim C6 says that a dispatch on a dispatcher whose API key is missing
    or empty raises a Configuration error and never calls the transport.
    An [OpenAIChatRepository] built by the constructor of
    repositories/base.py has no [api_key]; its [complete] validates and
    converts the request, fails to read the key while building the headers,
    and raises what the adapter makes of that [AttributeError], here a
    Provider error.  The same repository with the key set to the empty
    string sends the request, with an empty bearer token, and returns the
    response.  In neither run is a Configuration error raised. *)
Theorem base_complete_without_api_key :
  run (base.complete env_up (openai_repository accepting_adapter) hello_request)
  = (Raise (LLMError Provider "provider error" "openai" None
              (Some (AttributeError "api_key"))),
     [EvAdapter validate_request; EvAdapter convert_request;
      EvAdapter (convert_error (AttributeError "api_key"))])
  ∧ run (base.complete env_up (openai_repository_with_key accepting_adapter "")
           hello_request)
    = (Return hello_response,
       [EvAdapter validate_request; EvAdapter convert_request;
        EvTransport
          {| HttpRequest.url := "https://api.openai.com/v1/chat/completions";
             HttpRequest.method := "POST";
             HttpRequest.headers :=
               {[ "Authorization" := VStr "Bearer ";
                  "Content-Type" := VStr "application/json";
                  "OpenAI-Organization" := VStr "" ]};
             HttpRequest.params := None;
             HttpRequest.body := VDict {[ "model" := VStr "m1" ]};
             HttpRequest.model := "ChatCompletionResponse" |};
        EvAdapter convert_response]).
Proof. split; reflexivity. Qed.

(** *** The two variants of the chat dispatcher *)

(** Whatever the capability check of base_new.py yields (a truth value, or
    the [TypeError] of a protocol that is not runtime-checkable) and however
    the request is passed, the two variants never raise the same exception
    on a rejected request: [ValueError] is raised by base.py alone. *)
Lemma rejected_request_never_same_error cap env style self request errors e :
  (∀ e', isinstance_provider env = Raise e' → ∃ m, e' = TypeError m) →
  validate cap (provider self) request = Return errors → errors ≠ [] →
  (run (base_new.dispatch cap env style self request)).1 = Raise e →
  e ≠ ValueError errors.
Proof.
  intros Hi Hv Hne.
  destruct (run (base_new.dispatch cap env style self request)) as [out t] eqn:Hrun.
  cbn. intros ->. revert Hrun. unfold_M. unfold get_api_key. rewrite Hv.
  destruct errors; [done|].
  destruct style; cbn; intros Hrun; cases; simplify_eq/=; try done;
    match goal with
    | H : isinstance_provider env = Raise _ |- _ => by destruct (Hi _ H) as [? ->]
    | H : ∀ e', Raise _ = Raise e' → _ |- _ => by destruct (H _ eq_refl) as [? ->]
    end.
Qed.

(** Claim C7, at an input on which the two variants part: a valid
    configuration (an OpenAI repository holding the key "sk-test"), an
    adapter that accepts the request, a transport that answers, and the
    capability check answered as the interpreter answers it for the
    protocols of models/capabilities.py, which are not runtime-checkable.
    The variant of base.py validates, converts, sends the request and
    returns the adapter's response.  The variant of base_new.py, called
    with the request as positional argument, raises the [TypeError] of the
    capability check before it calls the adapter or the transport; called
    with the request by keyword, it raises the [TypeError] of the logging
    wrapper before the method body runs.  Neither error has a class in the
    taxonomy. *)
Theorem complete_variants_diverge :
  run (base.complete env_protocol
         (openai_repository_with_key accepting_adapter "sk-test") hello_request)
  = (Return hello_response,
     [EvAdapter validate_request; EvAdapter convert_request;
      EvTransport
        {| HttpRequest.url := "https://api.openai.com/v1/chat/completions";
           HttpRequest.method := "POST";
           HttpRequest.headers :=
             {[ "Authorization" := VStr "Bearer sk-test";
                "Content-Type" := VStr "application/json";
                "OpenAI-Organization" := VStr "" ]};
           HttpRequest.params := None;
           HttpRequest.body := VDict {[ "model" := VStr "m1" ]};
           HttpRequest.model := "ChatCompletionResponse" |};
      EvAdapter convert_response])
  ∧ run (base_new.complete env_protocol positional
           (openai_repository_with_key accepting_adapter "sk-test") hello_request)
    = (Raise protocol_check_error, [EvLog ERROR "Request failed"])
  ∧ run (base_new.complete env_protocol by_keyword
           (openai_repository_with_key accepting_adapter "sk-test") hello_request)
    = (Raise (TypeError "'bool' object is not callable"), [])
  ∧ is_LLMError protocol_check_error = false
  ∧ is_LLMError (TypeError "'bool' object is not callable") = false.
Proof. repeat split; reflexivity. Qed.

(** *** The Gemini dispatcher *)


(** The transport is reached: under a valid configuration, when the
    capability check passes and the adapter accepts and converts the
    request, a positional call sends exactly one request. *)
Lemma gemini_reaches_transport env self request key body :
  class self = Gemini → api_key self = Bound (Some key) → key ≠ "" →
  isinstance_provider env = Return true →
  ChatProvider.validate_chat_request (provider self) request = Return [] →
  ChatProvider.convert_chat_request (provider self) request = Return body →
  filter (λ ev, is_transport ev = true)
    (run (gemini.complete env positional self request)).2
  = [EvTransport
       {| HttpRequest.url :=
            "https://generativelanguage.googleapis.com" +:+ "/" +:+ version self
            +:+ "/models/" +:+ ChatRequest.model request +:+ ":generateContent";
          HttpRequest.method := "POST";
          HttpRequest.headers := {[ "Content-Type" := VStr "application/json" ]};
          HttpRequest.params := Some {[ "key" := VStr key ]};
          HttpRequest.body := body;
          HttpRequest.model := response_model self |}].
Proof.
  intros Hc Hk Hne Hi Hv Hb. unfold_M. unfold _get_headers, get_api_key, truthy.
  cbn. rewrite Hc, Hk, Hi, Hv, Hb. cbn.
  destruct (String.eqb key "") eqn:He; [by apply String.eqb_eq in He|]. cbn.
  cases; done.
Qed.



(** *** Where a Configuration error can come from in repositories/base.py *)

(** An adapter that files the missing credential under the Configuration
    class makes [complete] of repositories/base.py raise a Configuration
    error. *)
Lemma base_complete_raises_adapter_Configuration :
  run (base.complete env_up (openai_repository credential_adapter) hello_request)
  = (Raise (LLMError Configuration "credentials not set" "openai" None
              (Some (AttributeError "api_key"))),
     [EvAdapter validate_request; EvAdapter convert_request;
      EvAdapter (convert_error (AttributeError "api_key"))])
  ∧ isinstance_exn
      (LLMError Configuration "credentials not set" "openai" None
         (Some (AttributeError "api_key"))) Configuration = true.
Proof. split; reflexivity. Qed.

Lemma base_dispatch_configuration_origin cap env self request out t e :
  run (base.dispatch cap env self request) = (out, t) →
  out = Raise e →
  validate cap (provider self) request = Raise e
  ∨ convert_req cap (provider self) request = Raise e
  ∨ (∃ e0, EvAdapter (convert_error e0) ∈ t
         ∧ escaping (convert_err cap (provider self) e0) = e)
  ∨ ∃ errors, e = ValueError errors.
Proof.
  unfold_M. cbn. intros Hrun ->.
  cases; try (by left); try (by right; left); try (by right; right; right; eexists);
    right; right; left;
    match goal with
    | H : convert_err _ _ ?e0 = _ |- _ => exists e0; rewrite H
    end; (split; [set_solver|done]).
Qed.

(** Claim C9, amended.  Constructing a repository of repositories/base.py
    stores the adapter and nothing else: no setting is read and [api_key] is
    left unset.  Its dispatch never runs the configuration check, so it
    raises no Configuration error of its own: for every request and every
    state of [api_key], a Configuration error that leaves the dispatch was
    raised by the adapter's [validate] or request converter, or is what the
    adapter's [convert_error] produced for an exception caught in the [try]
    block. *)
Theorem base_dispatch_no_configuration_check (cap : Capability) (env : Env)
    (self : Repository (Adapter cap)) (request : Request cap) :
  (∀ c rm (p : Adapter cap) t,
     base.__init__ c rm p t
     = (Return {| class := c; response_model := rm; provider := p;
                  api_key := Missing; version := "" |}, t))
  ∧ (∀ e, (run (base.dispatch cap env self request)).1 = Raise e →
       isinstance_exn e Configuration = true →
       validate cap (provider self) request = Raise e
       ∨ convert_req cap (provider self) request = Raise e
       ∨ ∃ e0, EvAdapter (convert_error e0)
                 ∈ (run (base.dispatch cap env self request)).2
               ∧ escaping (convert_err cap (provider self) e0) = e).
Proof.
  split; [done|].
  destruct (run (base.dispatch cap env self request)) as [out t] eqn:Hrun.
  cbn. intros e -> He.
  destruct (base_dispatch_configuration_origin _ _ _ _ _ _ _ Hrun eq_refl)
    as [H|[H|[H|[errors ->]]]]; auto.
  done.
Qed.

Lemma base_dispatch_no_configuration_check_witness :
  ChatProvider.validate_chat_request credential_adapter hello_request
  = Raise (LLMError Configuration "credentials not set" "openai" None
             (Some (AttributeError "api_key")))
  ∨ ChatProvider.convert_chat_request credential_adapter hello_request
    = Raise (LLMError Configuration "credentials not set" "openai" None
               (Some (AttributeError "api_key")))
  ∨ ∃ e0, EvAdapter (convert_error e0)
            ∈ (run (base.complete env_up (openai_repository credential_adapter)
                      hello_request)).2
          ∧ escaping (ChatProvider.convert_error credential_adapter e0)
            = LLMError Configuration "credentials not set" "openai" None
                (Some (AttributeError "api_key")).
Proof.
  destruct (base_dispatch_no_configuration_check chat env_up
              (openai_repository credential_adapter) hello_request) as [_ H].
  apply (H (LLMError Configuration "credentials not set" "openai" None
              (Some (AttributeError "api_key")))); reflexivity.
Defined.

(** ** The Stream Reconstructor *)

Lemma append_nil_r s : s +:+ "" = s.
Proof.
  induction s as [|c s IH]; [done|].
  change (String c (s +:+ "") = String c s). by rewrite IH.
Qed.

Lemma append_assoc s1 s2 s3 : (s1 +:+ s2) +:+ s3 = s1 +:+ (s2 +:+ s3).
Proof.
  induction s1 as [|c s1 IH]; [done|].
  change (String c ((s1 +:+ s2) +:+ s3) = String c (s1 +:+ (s2 +:+ s3))).
  by rewrite IH.
Qed.

Section FoldFacts.
Import StreamReconstructor.
Variable provider : string.
Variable request : ChatRequest.t.
Variable content_index : ChatStreamResponse.t → nat.
Variable merge_call : FunctionCall.t → FunctionCall.t → FunctionCall.t.

Local Abbreviation step := (StreamReconstructor.step provider content_index merge_call).
Local Abbreviation fold := (StreamReconstructor.fold provider content_index merge_call).
Local Abbreviation streamed_text := (StreamReconstructor.streamed_text content_index).
Local Abbreviation has_text := (StreamReconstructor.has_text content_index).
Local Abbreviation content_indices :=
  (StreamReconstructor.content_indices content_index).
(** The parts kept apart from the texts are not text parts. *)
Local Abbreviation media_clean st :=
  (∀ i l, media st !! i = Some l → Forall (λ p, is_text p = false) l).

(** The one way a step fails: a terminal chunk after [done]. *)
Lemma step_raises st c e :
  step st c = Raise e → e = repeated_terminal provider
    ∧ finished st = true ∧ ChatStreamResponse.done c = true.
Proof.
  unfold StreamReconstructor.step.
  destruct (finished st), (ChatStreamResponse.done c); cbn;
    repeat case_match; naive_solver.
Qed.

Lemma step_returns st c :
  finished st && ChatStreamResponse.done c = false →
  ∃ st', step st c = Return st'
    ∧ id st' = id st
    ∧ finished st' = finished st || ChatStreamResponse.done c
    ∧ usage st' = match reported_usage c with Some u => Some u | None => usage st end
    ∧ next st' = next st `max` content_indices [c]
    ∧ (∀ i, texts st' !! i
            = if has_text [c] i
              then Some (default "" (texts st !! i) +:+ text_delta content_index i c)
              else texts st !! i)
    ∧ (media_clean st → media_clean st').
Proof.
  intros Hfin.
  unfold StreamReconstructor.step, StreamReconstructor.content_indices,
    StreamReconstructor.has_text, text_delta.
  rewrite Hfin. cbn.
  destruct (ChatStreamResponse.delta c) as [p|f]; [destruct (is_text p) eqn:Hp|];
    eexists; (split; [done|]); cbn; split_and!; try done; try lia.
  - intros i. rewrite orb_false_r. case_bool_decide as Hi.
    + subst i. by rewrite lookup_insert_eq.
    + by rewrite lookup_insert_ne.
  - intros Hm i l. destruct (decide (content_index c = i)) as [<-|Hi].
    + rewrite lookup_insert_eq. intros [= <-]. apply Forall_app. split.
      * destruct (media st !! content_index c) as [l0|] eqn:Hl; cbn; [|done].
        by apply (Hm _ _ Hl).
      * by repeat constructor.
    + rewrite lookup_insert_ne by done. apply Hm.
Qed.

Lemma fold_raises chunks : ∀ st e,
  fold st chunks = Raise e → e = repeated_terminal provider.
Proof.
  induction chunks as [|c chunks IH]; intros st e; cbn; [done|].
  destruct (step st c) as [st'|e'] eqn:Hs.
  - apply IH.
  - intros [= <-]. by apply step_raises in Hs as [-> _].
Qed.

Lemma fold_app l1 l2 : ∀ st,
  fold st (l1 ++ l2)
  = match fold st l1 with
    | Return st' => fold st' l2
    | Raise e => Raise e
    end.
Proof.
  induction l1 as [|c l1 IH]; intros st; cbn; [done|].
  by destruct (step st c).
Qed.

Lemma has_text_cons c chunks i :
  has_text (c :: chunks) i = has_text [c] i || has_text chunks i.
Proof. unfold StreamReconstructor.has_text. cbn. by rewrite orb_false_r. Qed.

(** An index without text deltas has no streamed text. *)
Lemma streamed_text_none chunks i :
  has_text chunks i = false → streamed_text chunks i = "".
Proof.
  induction chunks as [|c chunks IH]; [done|].
  rewrite (has_text_cons c chunks i).
  change (streamed_text (c :: chunks) i)
    with (text_delta content_index i c +:+ streamed_text chunks i).
  intros [Hc Hrest]%orb_false_iff. rewrite (IH Hrest), append_nil_r.
  unfold StreamReconstructor.has_text in Hc. cbn in Hc.
  rewrite orb_false_r in Hc. unfold text_delta.
  destruct (ChatStreamResponse.delta c) as [p|f]; [|done]. by rewrite Hc.
Qed.

(** The fold is total on sequences with a single terminal chunk, and what
    it accumulates is what the sequence says. *)
Lemma fold_returns chunks : ∀ st,
  single_terminal (finished st) chunks = true →
  ∃ st', fold st chunks = Return st'
    ∧ id st' = id st
    ∧ usage st' = match final_usage chunks with Some u => Some u | None => usage st end
    ∧ next st' = next st `max` content_indices chunks
    ∧ (∀ i, texts st' !! i
            = if has_text chunks i
              then Some (default "" (texts st !! i) +:+ streamed_text chunks i)
              else texts st !! i)
    ∧ (media_clean st → media_clean st').
Proof.
  induction chunks as [|c chunks IH]; intros st;
    cbn [StreamReconstructor.single_terminal StreamReconstructor.fold].
  - intros _. exists st. unfold StreamReconstructor.content_indices. cbn.
    split_and!; try done; lia.
  - intros [Hc Hrest]%andb_true_iff. apply negb_true_iff in Hc.
    destruct (step_returns st c Hc) as (st1 & -> & Hid & Hfin & Hu & Hn & Ht & Hm).
    rewrite <- Hfin in Hrest.
    destruct (IH st1 Hrest) as (st' & -> & Hid' & Hu' & Hn' & Ht' & Hm').
    exists st'. split; [done|]. split; [congruence|]. split_and!.
    + rewrite Hu', Hu. unfold final_usage. cbn.
      destruct (reported_usage c) as [u|]; cbn; [|done].
      rewrite last_cons. by destruct (last _).
    + rewrite Hn', Hn. unfold StreamReconstructor.content_indices. cbn [foldr].
      destruct (ChatStreamResponse.delta c) as [p|f]; lia.
    + intros i. rewrite Ht', Ht.
      rewrite (has_text_cons c chunks i).
      change (streamed_text (c :: chunks) i)
        with (text_delta content_index i c +:+ streamed_text chunks i).
      destruct (has_text [c] i) eqn:H1, (has_text chunks i) eqn:H2; cbn.
      * by rewrite append_assoc.
      * by rewrite (streamed_text_none _ _ H2), append_nil_r.
      * replace (text_delta content_index i c) with ""; [done|].
        unfold StreamReconstructor.has_text in H1. cbn in H1.
        rewrite orb_false_r in H1. unfold text_delta.
        destruct (ChatStreamResponse.delta c); [by rewrite H1|done].
      * done.
    + intros H. exact (Hm' (Hm H)).
Qed.

Lemma fold_finished chunks : ∀ st st',
  fold st chunks = Return st' →
  finished st' = finished st || existsb ChatStreamResponse.done chunks.
Proof.
  induction chunks as [|c chunks IH]; intros st st'; cbn.
  - intros [= ->]. by rewrite orb_false_r.
  - destruct (step st c) as [st1|] eqn:Hs; [|done]. intros Hf.
    rewrite (IH _ _ Hf).
    destruct (finished st && ChatStreamResponse.done c) eqn:Hfin.
    + unfold StreamReconstructor.step in Hs. by rewrite Hfin in Hs.
    + destruct (step_returns st c Hfin) as (st2 & Hs2 & _ & Hf2 & _).
      rewrite Hs in Hs2. injection Hs2 as <-. rewrite Hf2. cbn.
      by rewrite orb_assoc.
Qed.

(** The text content of the response built from a state: the texts the
    state holds, by ascending content index. *)
Lemma response_texts_finish st :
  media_clean st →
  response_texts (finish request st) = omap (λ i, texts st !! i) (seq 0 (next st)).
Proof.
  intros Hm. unfold response_texts, finish. cbn.
  induction (seq 0 (next st)) as [|i l IH]; [done|].
  cbn [flat_map]. rewrite omap_app, IH. unfold parts_at at 1.
  rewrite omap_app.
  assert (omap part_text (default [] (media st !! i)) = []) as ->.
  { destruct (media st !! i) as [l0|] eqn:Hl; cbn; [|done].
    specialize (Hm _ _ Hl). clear Hl.
    induction Hm as [|p l0 Hp _ IH0]; [done|].
    cbn. unfold part_text at 1. by rewrite Hp. }
  rewrite app_nil_r. cbn. by destruct (texts st !! i) as [s|].
Qed.
End FoldFacts.

(** Claim C3.  Take the chunks emitted for one request, in order, with no
    terminal chunk after the terminal chunk; the content deltas may be of
    any type and stand at any content index.  Folding them through the
    reconstructor yields a response whose text content is, for every
    content index that received text, the text deltas of that index
    concatenated in arrival order, and whose usage is the one reported by
    the last chunk that reports usage.  Hence, for every non-streaming
    response [r] of the same completion, one with that text content and
    that usage, wherever its parts of another type stand, the folded
    response has the text content of [r] and the usage of [r].  And a
    terminal chunk that arrives after a chunk with [done] set is not
    merged: the fold fails with an error of the Provider class. *)
Theorem reconstruct_spec (provider : string) (request : ChatRequest.t)
    (content_index : ChatStreamResponse.t → nat)
    (merge_call : FunctionCall.t → FunctionCall.t → FunctionCall.t)
    (chunks : list ChatStreamResponse.t) :
  (chunks ≠ [] →
   StreamReconstructor.single_terminal false chunks = true →
   ∃ r', StreamReconstructor.reconstruct provider request content_index
           merge_call chunks = Return r'
         ∧ StreamReconstructor.response_texts r'
           = StreamReconstructor.stream_texts content_index chunks
         ∧ StreamReconstructor.usage_of r' = StreamReconstructor.final_usage chunks
         ∧ ∀ r : ChatResponse.t,
             StreamReconstructor.response_texts r
             = StreamReconstructor.stream_texts content_index chunks →
             StreamReconstructor.usage_of r
             = StreamReconstructor.final_usage chunks →
             StreamReconstructor.response_texts r'
             = StreamReconstructor.response_texts r
             ∧ StreamReconstructor.usage_of r' = StreamReconstructor.usage_of r)
  ∧ (∀ c, existsb ChatStreamResponse.done chunks = true →
          ChatStreamResponse.done c = true →
          ∃ e, StreamReconstructor.reconstruct provider request content_index
                 merge_call (chunks ++ [c]) = Raise e
               ∧ isinstance_exn e Provider = true).
Proof.
  split.
  - intros Hne Hsingle.
    destruct chunks as [|c0 chunks']; [done|].
    unfold StreamReconstructor.reconstruct.
    destruct (fold_returns provider content_index merge_call (c0 :: chunks')
                (StreamReconstructor.initial (ChatStreamResponse.id c0)) Hsingle)
      as (st & -> & _ & Hu & Hn & Ht & Hm).
    assert (StreamReconstructor.response_texts (StreamReconstructor.finish request st)
            = StreamReconstructor.stream_texts content_index (c0 :: chunks'))
      as Htexts.
    { rewrite response_texts_finish by (apply Hm; intros i l; cbn; by rewrite lookup_empty).
      rewrite Hn. unfold StreamReconstructor.stream_texts.
      cbn [StreamReconstructor.initial StreamReconstructor.next Nat.max].
      apply list_omap_ext, Forall2_same_length_lookup_2; [done|].
      intros i x y Hx Hy. assert (x = y) as <- by congruence.
      rewrite Ht. cbn [StreamReconstructor.initial StreamReconstructor.texts].
      by rewrite lookup_empty. }
    assert (StreamReconstructor.usage_of (StreamReconstructor.finish request st)
            = StreamReconstructor.final_usage (c0 :: chunks')) as Husage.
    { unfold StreamReconstructor.usage_of. cbn. rewrite Hu. cbn.
      by destruct (StreamReconstructor.final_usage _). }
    eexists. split; [done|]. split; [done|]. split; [done|].
    intros r Hr Hru. by rewrite Htexts, Husage, Hr, Hru.
  - intros c Hdone Hc.
    destruct chunks as [|c0 chunks']; [done|].
    unfold StreamReconstructor.reconstruct. cbn [app].
    change (c0 :: chunks' ++ [c]) with ((c0 :: chunks') ++ [c]).
    rewrite fold_app.
    destruct (StreamReconstructor.fold _ _ _ (StreamReconstructor.initial _)
                (c0 :: chunks')) as [st|e] eqn:Hf.
    + apply fold_finished in Hf.
      cbn [StreamReconstructor.initial StreamReconstructor.finished orb] in Hf.
      rewrite Hdone in Hf. cbn [StreamReconstructor.fold].
      unfold StreamReconstructor.step. rewrite Hf, Hc. cbn.
      by eexists.
    + apply fold_raises in Hf as ->. by eexists.
Qed.

(** [illustrated_response], a picture followed by the text "abc", streamed
    as the picture at index 0 and "a", "bc" at index 1: the fold gives back
    its text content and its usage; a second terminal chunk is refused. *)
Lemma reconstruct_spec_witness :
  (∃ r', StreamReconstructor.reconstruct "openai" hello_request illustrated_index
           (λ _ f, f) illustrated_chunks = Return r'
         ∧ StreamReconstructor.response_texts r' = ["abc"]
         ∧ StreamReconstructor.response_texts r'
           = StreamReconstructor.response_texts illustrated_response
         ∧ StreamReconstructor.usage_of r'
           = StreamReconstructor.usage_of illustrated_response)
  ∧ (∃ e, StreamReconstructor.reconstruct "openai" hello_request illustrated_index
            (λ _ f, f)
            (illustrated_chunks
             ++ [content_chunk (Content.Build TEXT (Some "bc") None)
                   (Some (ChatResponse.metadata illustrated_response)) true])
          = Raise e
          ∧ isinstance_exn e Provider = true).
Proof.
  destruct (reconstruct_spec "openai" hello_request illustrated_index (λ _ f, f)
              illustrated_chunks) as [HA HB].
  split.
  - destruct HA as (r' & Hr & Ht & _ & Hcmp); [discriminate | reflexivity |].
    exists r'. split; [exact Hr|]. split; [exact Ht|].
    apply Hcmp; reflexivity.
  - apply HB; reflexivity.
Defined.

(** The response folded from [illustrated_chunks] is [illustrated_response]
    itself: the picture keeps its place before the text. *)
Lemma illustrated_reconstructed :
  StreamReconstructor.reconstruct "openai" hello_request illustrated_index
    (λ _ f, f) illustrated_chunks
  = Return illustrated_response.
Proof. reflexivity. Qed.

(** The stream of [hello_response] folds to a response with its text and
    its usage. *)
Lemma hello_reconstructed :
  ∃ r', StreamReconstructor.reconstruct "openai" hello_request (λ _, 0)
          (λ _ f, f) hello_chunks = Return r'
        ∧ StreamReconstructor.response_texts r'
          = StreamReconstructor.response_texts hello_response
        ∧ StreamReconstructor.usage_of r'
          = StreamReconstructor.usage_of hello_response.
Proof. eexists. split; [reflexivity|]. split; reflexivity. Qed.

(** * Further properties of the code *)

(** ** exceptions.py *)

(** X1.  The class hierarchy of exceptions.py: [issubclass] is a partial
    order with [LLMError] on top; the classes an [except ProviderError]
    clause catches are [ProviderError] and its five refinements and no
    other; [ValidationError], [UnsupportedOperationError] and
    [ConfigurationError] have no subclass but themselves. *)
Theorem taxonomy_hierarchy :
  (∀ c, issubclass c c = true)
  ∧ (∀ c, issubclass c LLMErrorBase = true)
  ∧ (∀ a b c, issubclass a b = true → issubclass b c = true → issubclass a c = true)
  ∧ (∀ a b, issubclass a b = true → issubclass b a = true → a = b)
  ∧ (∀ c, issubclass c Provider = true
          ↔ c ∈ [Provider; RateLimit; Authentication; QuotaExceeded;
                 InvalidRequest; ContextLengthExceeded])
  ∧ (∀ c d, d ∈ [Validation; UnsupportedOperation; Configuration] →
            issubclass c d = true → c = d).
Proof.
  split_and!.
  - by intros [].
  - by intros [].
  - by intros [] [] [].
  - by intros [] [].
  - intros c. destruct c; cbn; split; try done; set_solver.
  - intros c d Hd. destruct c, d; cbn; try done; set_solver.
Qed.

Lemma taxonomy_hierarchy_witness :
  issubclass RateLimit LLMErrorBase = true ∧ issubclass Validation Provider ≠ true.
Proof.
  destruct taxonomy_hierarchy as (_ & _ & Htrans & _ & Hprov & _).
  split.
  - apply (Htrans RateLimit Provider LLMErrorBase); reflexivity.
  - intros H. apply Hprov in H. vm_compute in H. 
    repeat (apply elem_of_cons in H as [H|H]; [discriminate|]).
    by apply elem_of_nil in H.
Defined.

(** ** utils/logging.py: masking, continued *)

Lemma value_size_lookup d k v :
  d !! k = Some v → value_size v < value_size (VDict d).
Proof.
  intros Hk. cbn.
  rewrite <- (insert_delete_id d k v Hk).
  rewrite map_fold_insert_L.
  - lia.
  - intros. lia.
  - apply lookup_delete_eq.
Qed.

(** Induction on the nesting of dictionaries. *)
Lemma value_dict_ind (P : value → Prop) :
  (∀ v, (∀ d, v ≠ VDict d) → P v) →
  (∀ d, (∀ k v, d !! k = Some v → P v) → P (VDict d)) →
  ∀ v, P v.
Proof.
  intros Hatom Hdict.
  assert (∀ n v, value_size v < n → P v) as H.
  { induction n as [|n IH]; intros v Hv; [lia|].
    destruct v; try (by apply Hatom).
    apply Hdict. intros k v' Hk. apply IH.
    pose proof (value_size_lookup _ _ _ Hk). lia. }
  intros v. apply (H (S (value_size v))). lia.
Qed.

(** X2.  Masking is idempotent: masking a masked dictionary changes
    nothing. *)
Theorem mask_sensitive_data_idempotent (lower : string → string)
    (data : gmap string value) :
  mask_sensitive_data lower (mask_sensitive_data lower data)
  = mask_sensitive_data lower data.
Proof.
  assert (∀ v, mask_value lower (mask_value lower v) = mask_value lower v) as H.
  { induction v as [v Hv|d IH] using value_dict_ind.
    - destruct v; try done. by destruct (Hv d).
    - rewrite !mask_value_dict. f_equal. apply map_eq. intros k.
      rewrite !mask_lookup. destruct (d !! k) as [v|] eqn:Hk; [|done]. cbn.
      destruct (sensitive lower k); [done|]. f_equal. by eapply IH. }
  specialize (H (VDict data)). rewrite !mask_value_dict in H. by injection H.
Qed.

(** X3.  What masking hides and what it keeps: two dictionaries have the
    same masked form exactly when they differ at most in the values held
    under sensitive keys of dictionaries nested directly in dictionaries.
    So the masked form says nothing about those values, and it determines
    everything else, the contents of lists included. *)
Theorem mask_sensitive_data_noninterference (lower : string → string)
    (d1 d2 : gmap string value) :
  mask_sensitive_data lower d1 = mask_sensitive_data lower d2
  ↔ low_equiv lower (VDict d1) (VDict d2).
Proof.
  assert (∀ v1 v2, low_equiv lower v1 v2 →
            mask_value lower v1 = mask_value lower v2) as Hto.
  { induction 1 as [|e1 e2 Hdom _ IH]; [done|].
    rewrite !mask_value_dict. f_equal. apply map_eq. intros k.
    rewrite !mask_lookup.
    destruct (e1 !! k) as [v1|] eqn:H1, (e2 !! k) as [v2|] eqn:H2; cbn.
    - destruct (sensitive lower k) eqn:Hs; [done|]. f_equal. by eapply IH.
    - apply elem_of_dom_2 in H1. apply not_elem_of_dom in H2.
      by rewrite Hdom in H1.
    - apply elem_of_dom_2 in H2. apply not_elem_of_dom in H1.
      by rewrite Hdom in H1.
    - done. }
  assert (∀ v1 v2, mask_value lower v1 = mask_value lower v2 →
            low_equiv lower v1 v2) as Hfrom.
  { induction v1 as [v1 Hv|e1 IH] using value_dict_ind; intros v2 Heq.
    - destruct v1; try (by destruct (Hv d));
        destruct v2; cbn in Heq; simplify_eq; constructor.
    - destruct v2 as [| | | | | |e2]; try done.
      rewrite !mask_value_dict in Heq. injection Heq as Heq.
      apply low_equiv_dict.
      + rewrite <- (mask_dom lower e1), <- (mask_dom lower e2). by rewrite Heq.
      + intros k v1 v2 Hs H1 H2. eapply IH; [done|].
        assert (mask_sensitive_data lower e1 !! k
                = mask_sensitive_data lower e2 !! k) as Hk by (by rewrite Heq).
        rewrite !mask_lookup, H1, H2, Hs in Hk. by injection Hk. }
  split.
  - intros Heq. apply Hfrom. by rewrite !mask_value_dict, Heq.
  - intros Hlow. apply Hto in Hlow. rewrite !mask_value_dict in Hlow.
    by injection Hlow.
Qed.

(** Two log payloads with different passwords and tokens are related. *)
Lemma mask_sensitive_data_noninterference_witness :
  low_equiv ascii_lower (VDict (login_log "hunter2" "t-1"))
    (VDict (login_log "correct horse" "t-2")).
Proof.
  apply (mask_sensitive_data_noninterference ascii_lower).
  vm_compute. reflexivity.
Defined.

(** X4.  A dictionary in which no dictionary reached through dictionaries
    has a sensitive key is returned as it is. *)
Theorem mask_sensitive_data_identity (lower : string → string)
    (data : gmap string value) :
  no_sensitive_key lower (VDict data) → mask_sensitive_data lower data = data.
Proof.
  assert (∀ v, no_sensitive_key lower v → mask_value lower v = v) as H.
  { induction 1 as [v Hv|d Hs _ IH].
    - destruct v; try done. by destruct (Hv d).
    - rewrite mask_value_dict. f_equal. apply map_eq. intros k.
      rewrite mask_lookup. destruct (d !! k) as [v|] eqn:Hk; [|done]. cbn.
      rewrite (Hs _ _ Hk). f_equal. by eapply IH. }
  intros Hd. apply H in Hd. rewrite mask_value_dict in Hd. by injection Hd.
Qed.

Lemma mask_sensitive_data_identity_witness :
  mask_sensitive_data ascii_lower {[ "user" := VStr "bob" ]}
  = {[ "user" := VStr "bob" ]}.
Proof.
  apply mask_sensitive_data_identity. apply no_sensitive_key_dict.
  - intros k v [<- <-]%lookup_singleton_Some. reflexivity.
  - intros k v [<- <-]%lookup_singleton_Some.
    apply no_sensitive_key_atom. discriminate.
Defined.

(** ** models/base.py: what the MediaSource model rejects *)

Lemma ContentType_of_value_Some v t :
  ContentType_of_value v = Some t → v = VStr (ContentType_value t).
Proof.
  destruct v; try done. cbn.
  repeat (destruct (String.eqb _ _) eqn:E;
          [apply String.eqb_eq in E; subst; by intros [= <-]|clear E]).
  done.
Qed.

(** X5.  The MediaSource model rejects every set of keyword arguments that
    holds a key it does not declare, or lacks [type], or lacks [mime_type],
    and names the problem; and what it accepts it stores without change:
    the arguments hold only declared keys, [type] is the value of the stored
    content type, [mime_type] is the stored string, and each source field
    is absent or [None] when stored as [None] and is the stored string
    otherwise. *)
Theorem MediaSource_init_rejections (kwargs : gmap string value) :
  (∀ k, k ∈ dom kwargs → k ∉ MediaSource_fields →
     ∃ errors, MediaSource_init kwargs = Rejected errors
               ∧ "extra_forbidden" ∈ errors)
  ∧ (kwargs !! "type" = None →
     ∃ errors, MediaSource_init kwargs = Rejected errors ∧ "type" ∈ errors)
  ∧ (kwargs !! "mime_type" = None →
     ∃ errors, MediaSource_init kwargs = Rejected errors ∧ "mime_type" ∈ errors)
  ∧ (∀ m, MediaSource_init kwargs = Accepted m →
       dom kwargs ⊆ MediaSource_fields
       ∧ kwargs !! "type" = Some (VStr (ContentType_value (MediaSource.type m)))
       ∧ kwargs !! "mime_type" = Some (VStr (MediaSource.mime_type m))
       ∧ optional_str (kwargs !! "data") = Some (MediaSource.data m)
       ∧ optional_str (kwargs !! "url") = Some (MediaSource.url m)
       ∧ optional_str (kwargs !! "path") = Some (MediaSource.path m)).
Proof.
  unfold MediaSource_init. split_and!.
  - intros k Hk Hf.
    assert (bool_decide (dom kwargs ⊆ MediaSource_fields) = false) as ->.
    { apply bool_decide_eq_false. intros Hsub. by apply Hf, Hsub. }
    repeat case_match; eexists; (split; [done|]); cbn; set_solver.
  - intros ->. cbn. repeat case_match; eexists; (split; [done|]); cbn; set_solver.
  - intros ->. cbn. repeat case_match; eexists; (split; [done|]); cbn; set_solver.
  - intros m. repeat case_match; try done. intros [= <-]. cbn. split_and!; try done.
    + match goal with
      | H : bool_decide _ = true |- _ => exact (bool_decide_eq_true_1 _ H)
      end.
    + match goal with
      | H : _ ≫= ContentType_of_value = Some _ |- _ =>
          destruct (kwargs !! "type") as [v|]; [|done]; cbn in H;
          by rewrite (ContentType_of_value_Some _ _ H)
      end.
    + match goal with
      | H : required_str _ = Some _ |- _ =>
          unfold required_str in H; by repeat case_match; simplify_eq
      end.
Qed.

Lemma MediaSource_init_rejections_witness :
  ∃ errors,
    MediaSource_init {[ "type" := VStr "image"; "mime_type" := VStr "image/png";
                        "uri" := VStr "gs://bucket/a.png" ]} = Rejected errors
    ∧ "extra_forbidden" ∈ errors.
Proof.
  destruct (MediaSource_init_rejections
              {[ "type" := VStr "image"; "mime_type" := VStr "image/png";
                 "uri" := VStr "gs://bucket/a.png" ]}) as (H & _).
  apply (H "uri").
  - apply elem_of_dom. eexists. reflexivity.
  - vm_compute. discriminate.
Defined.

(** ** utils/logging.py: the decorator *)

Lemma log_operation_unfold provider operation log_request log_response mask
    {A : Type} (bool_of : A → bool) style request_truthy (func : M A) t :
  log_operation provider operation log_request log_response mask bool_of style
    request_truthy func t
  = if log_request && (in_kwargs style && request_truthy)
    then (Raise (TypeError "'bool' object is not callable"), t)
    else match func t with
         | (Return a, t') =>
             if log_response && bool_of a
             then (Raise (TypeError "'bool' object is not callable"),
                   t' ++ [EvLog ERROR "Request failed"])
             else (Return a, t' ++ [EvLog INFO "Request completed"])
         | (Raise e, t') => (Raise e, t' ++ [EvLog ERROR "Request failed"])
         end.
Proof.
  unfold_M. destruct (log_request && (in_kwargs style && request_truthy)); cbn;
    [done|].
  destruct (func t) as [[a|e] t']; [|done]. by destruct (log_response && bool_of a).
Qed.

(** X6.  What [log_operation] makes of a coroutine.  When request logging
    is on and a truthy request is passed by keyword, the coroutine is not
    run: the wrapper raises [TypeError] at once.  Otherwise the coroutine
    runs and exactly one record is logged after it.  An exception it raises
    leaves unchanged after an ERROR record.  A result is returned, after an
    INFO record, when response logging is off or the result is falsy; when
    response logging is on and the result is truthy, the wrapper raises
    [TypeError] in its place, after an ERROR record.  So with response
    logging on, whatever the decorated coroutine returns is falsy. *)
Theorem log_operation_outcome (provider operation : string)
    (log_request log_response mask : bool) (A : Type) (bool_of : A → bool)
    (style : CallStyle) (request_truthy : bool) (func : M A) (t : trace) :
  (log_request && (in_kwargs style && request_truthy) = true →
     log_operation provider operation log_request log_response mask bool_of style
       request_truthy func t
     = (Raise (TypeError "'bool' object is not callable"), t))
  ∧ (log_request && (in_kwargs style && request_truthy) = false →
     ∀ e t', func t = (Raise e, t') →
       log_operation provider operation log_request log_response mask bool_of
         style request_truthy func t
       = (Raise e, t' ++ [EvLog ERROR "Request failed"]))
  ∧ (log_request && (in_kwargs style && request_truthy) = false →
     ∀ a t', func t = (Return a, t') → log_response && bool_of a = false →
       log_operation provider operation log_request log_response mask bool_of
         style request_truthy func t
       = (Return a, t' ++ [EvLog INFO "Request completed"]))
  ∧ (log_request && (in_kwargs style && request_truthy) = false →
     ∀ a t', func t = (Return a, t') → log_response && bool_of a = true →
       log_operation provider operation log_request log_response mask bool_of
         style request_truthy func t
       = (Raise (TypeError "'bool' object is not callable"),
          t' ++ [EvLog ERROR "Request failed"]))
  ∧ (∀ a, (log_operation provider operation log_request log_response mask bool_of
             style request_truthy func t).1 = Return a →
       log_response && bool_of a = false).
Proof.
  rewrite log_operation_unfold. split_and!.
  - by intros ->.
  - by intros -> e t' ->.
  - by intros -> a t' -> ->.
  - by intros -> a t' -> ->.
  - intros a. destruct (log_request && (in_kwargs style && request_truthy));
      [done|].
    destruct (func t) as [[a'|?] ?]; [|done].
    destruct (log_response && bool_of a') eqn:Hb; [done|]. by intros [= <-].
Qed.

(** A coroutine that returns [None], decorated with the default flags and
    called with a positional request, returns [None] after an INFO record;
    one that returns a response raises [TypeError] after an ERROR record. *)
Lemma log_operation_outcome_witness :
  log_operation "openai" "chat_completion" true true true truthy positional true
    (mret None) []
  = (Return None, [EvLog INFO "Request completed"])
  ∧ log_operation "openai" "chat_completion" true true true model_truthy
      positional true (mret hello_response) []
    = (Raise (TypeError "'bool' object is not callable"),
       [EvLog ERROR "Request failed"]).
Proof.
  split.
  - destruct (log_operation_outcome "openai" "chat_completion" true true true
                (option string) truthy positional true (mret None) [])
      as (_ & _ & H & _).
    apply (H eq_refl None []); reflexivity.
  - destruct (log_operation_outcome "openai" "chat_completion" true true true
                ChatResponse.t model_truthy positional true (mret hello_response) [])
      as (_ & _ & _ & H & _).
    apply (H eq_refl hello_response []); reflexivity.
Defined.

(** ** Construction and headers *)

Lemma truthy_Some k : truthy k = true → ∃ s, k = Some s ∧ s ≠ "".
Proof.
  destruct k as [s|]; [|done]. cbn. intros H. exists s. split; [done|].
  intros ->. done.
Qed.

(** [_get_api_key], class by class: the built-in error of the base class,
    or the setting of the mixin, read once when it is missing and twice
    when it is there. *)
Lemma get_api_key_by_class env c t :
  _get_api_key env c t
  = match c with
    | Plain n _ =>
        (Raise (NotImplementedError
                  ("API key retrieval not implemented for " +:+ n)), t)
    | _ =>
        if truthy (setting_of c (llms env))
        then (Return (str (setting_of c (llms env))),
              t ++ [EvSettings (setting_name c); EvSettings (setting_name c)])
        else (Raise (NameError "ConfigurationError"),
              t ++ [EvSettings (setting_name c)])
    end.
Proof.
  destruct c; unfold_M; cbn; [done|..];
    match goal with
    | |- context [truthy ?x] => destruct (truthy x); cbn; [|done]
    end; by rewrite <- app_assoc.
Qed.

(** X7.  The constructor of repositories/base_new.py, for a class that
    takes [_get_api_key] from the base class or from one of the three
    mixins.  Given a non-empty key it stores that key and reads no setting.
    Whenever it returns, the repository holds the given adapter and a
    non-empty key (the given one, or else the setting of its class, which
    was then read twice and nothing else), so that [_validate_configuration]
    passes on it.  Given no key or an empty one, with no such setting
    either, it raises an error outside the taxonomy: [NotImplementedError]
    for a class without mixin, and otherwise [NameError], since the mixins
    name [ConfigurationError] without importing it. *)
Theorem base_new_init_spec (P : Type) (env : Env) (c : RepoClass) (rm : string)
    (p : P) (k : option string) (t : trace) :
  (∀ s, k = Some s → s ≠ "" →
     base_new.__init__ env c rm p k t
     = (Return {| class := c; response_model := rm; provider := p;
                  api_key := Bound (Some s); version := "" |}, t))
  ∧ (∀ self t', base_new.__init__ env c rm p k t = (Return self, t') →
       class self = c ∧ provider self = p
       ∧ (∃ s, api_key self = Bound (Some s) ∧ s ≠ ""
               ∧ (truthy k = true → k = Some s)
               ∧ (truthy k = false →
                  setting_of c (llms env) = Some s
                  ∧ t' = t ++ [EvSettings (setting_name c);
                               EvSettings (setting_name c)]))
       ∧ _validate_configuration self t' = (Return (), t'))
  ∧ (truthy k = false → truthy (setting_of c (llms env)) = false →
     ∃ e, (base_new.__init__ env c rm p k t).1 = Raise e
          ∧ is_LLMError e = false
          ∧ match c with
            | Plain n _ =>
                e = NotImplementedError
                      ("API key retrieval not implemented for " +:+ n)
            | _ => e = NameError "ConfigurationError"
            end).
Proof.
  split; [|split].
  - intros s -> Hs. unfold_M. cbn.
    destruct (String.eqb s "") eqn:He; [by apply String.eqb_eq in He|]. done.
  - intros self t'.
    unfold base_new.__init__, base_new.BaseLLMRepository__init__,
      mbind, mret, M_bind, M_ret, bind, ret.
    destruct (truthy k) eqn:Hk.
    + destruct (truthy_Some _ Hk) as (s & -> & Hs). unfold_M. cbn.
      intros [= <- <-]. cbn. repeat split.
      * exists s. by repeat split.
      * unfold get_api_key. cbn. cbn in Hk. by rewrite Hk.
    + rewrite get_api_key_by_class.
      destruct (truthy (setting_of c (llms env))) eqn:Hs.
      2: { by destruct c. }
      destruct (truthy_Some _ Hs) as (s & Hx & Hne).
      assert (c ≠ Plain (provider_name c) (base_url c)) as Hc
        by (intros Hc; rewrite Hc in Hx; done).
      replace (match c with
               | Plain n _ =>
                   (Raise (NotImplementedError
                             ("API key retrieval not implemented for " +:+ n)), t)
               | _ => (Return (str (setting_of c (llms env))),
                       t ++ [EvSettings (setting_name c);
                             EvSettings (setting_name c)])
               end)
        with (@Return string (str (setting_of c (llms env))),
              t ++ [EvSettings (setting_name c); EvSettings (setting_name c)])
        by (by destruct c).
      rewrite Hx. unfold_M. cbn. intros [= <- <-]. cbn. repeat split.
      * exists s. by repeat split.
      * unfold get_api_key. cbn. rewrite Hx in Hs. cbn in Hs. by rewrite Hs.
  - intros Hk Hs.
    unfold base_new.__init__, base_new.BaseLLMRepository__init__,
      mbind, mret, M_bind, M_ret, bind, ret.
    rewrite Hk, get_api_key_by_class, Hs. destruct c; by eexists.
Qed.

Lemma base_new_init_spec_witness :
  base_new.__init__ env_up OpenAI "ChatCompletionResponse" accepting_adapter
    (Some "sk-test") []
  = (Return (openai_repository_with_key accepting_adapter "sk-test"), []).
Proof.
  destruct (base_new_init_spec ChatProvider.t env_up OpenAI "ChatCompletionResponse"
              accepting_adapter (Some "sk-test") []) as (H & _).
  apply (H "sk-test"); [reflexivity | discriminate].
Defined.

(** X8.  The headers of each class.  Whenever [_get_headers] returns, the
    headers hold [Content-Type: application/json]; the OpenAI mixin puts the
    key, as it is, in [Authorization] behind the word Bearer (the text None
    when the key is [None]) and sends three headers; the Anthropic mixin
    puts the key in [x-api-key] beside a non-empty [anthropic-version]; the
    Gemini mixin sends [Content-Type] alone.  [_get_headers] raises only
    for a class without mixin ([NotImplementedError]) or when an OpenAI or
    Anthropic repository has no [api_key] ([AttributeError]). *)
Theorem get_headers_spec (P : Type) (env : Env) (self : Repository P) :
  (∀ h, _get_headers env self = Return h →
     h !! "Content-Type" = Some (VStr "application/json")
     ∧ match class self with
       | Plain _ _ => False
       | OpenAI =>
           ∃ k, api_key self = Bound k
                ∧ h !! "Authorization" = Some (VStr ("Bearer " +:+ str k))
                ∧ dom h = {[ "Authorization"; "Content-Type"; "OpenAI-Organization" ]}
       | Anthropic =>
           ∃ k, api_key self = Bound k
                ∧ h !! "x-api-key" = Some (value_of k)
                ∧ (∃ v, h !! "anthropic-version" = Some (VStr v) ∧ v ≠ "")
                ∧ dom h = {[ "x-api-key"; "Content-Type"; "anthropic-version" ]}
       | Gemini => h = {[ "Content-Type" := VStr "application/json" ]}
       end)
  ∧ (∀ e, _get_headers env self = Raise e →
       (∃ n u, class self = Plain n u
               ∧ e = NotImplementedError ("Headers not implemented for " +:+ n))
       ∨ ((class self = OpenAI ∨ class self = Anthropic)
          ∧ api_key self = Missing ∧ e = AttributeError "api_key")).
Proof.
  unfold _get_headers, get_api_key. split.
  - intros h. destruct (class self); [done| | |]; cases; intros; simplify_eq.
    + split; [done|]. eexists. split; [done|]. split; [done|].
      rewrite !dom_insert_L, dom_singleton_L. set_solver.
    + split; [done|]. eexists. split; [done|]. split; [done|]. split.
      * eexists. split; [done|]. unfold or_else. repeat case_match; try done.
        intros ->. done.
      * rewrite !dom_insert_L, dom_singleton_L. set_solver.
    + done.
  - intros e. destruct (class self) eqn:Hc; cases; intros; simplify_eq;
      try (by left; eauto); right; by auto.
Qed.

Lemma get_headers_spec_witness :
  ∃ k, api_key (openai_repository_with_key accepting_adapter "sk-test") = Bound k
     ∧ HttpRequest.headers openai_hello_request !! "Authorization"
       = Some (VStr ("Bearer " +:+ str k)).
Proof.
  destruct (get_headers_spec ChatProvider.t env_up
              (openai_repository_with_key accepting_adapter "sk-test")) as [H _].
  destruct (H (HttpRequest.headers openai_hello_request) eq_refl)
    as (_ & k & Hk & Ha & _).
  by exists k.
Defined.

(** ** repositories/base.py: the shape of a dispatch *)

(** X9.  The calls of a dispatch of repositories/base.py come in one fixed
    order and none is repeated: [validate], then the request converter, then
    at most one transport call, then the response converter, and
    [convert_error] at most once, as the last call. *)
Theorem base_dispatch_call_order (cap : Capability) (env : Env)
    (self : Repository (Adapter cap)) (request : Request cap) :
  let t := (run (base.dispatch cap env self request)).2 in
  t = [EvAdapter validate_request]
  ∨ t = [EvAdapter validate_request; EvAdapter convert_request]
  ∨ (∃ e, t = [EvAdapter validate_request; EvAdapter convert_request;
               EvAdapter (convert_error e)])
  ∨ (∃ r e, t = [EvAdapter validate_request; EvAdapter convert_request;
                 EvTransport r; EvAdapter (convert_error e)])
  ∨ (∃ r, t = [EvAdapter validate_request; EvAdapter convert_request;
               EvTransport r; EvAdapter convert_response])
  ∨ (∃ r e, t = [EvAdapter validate_request; EvAdapter convert_request;
                 EvTransport r; EvAdapter convert_response;
                 EvAdapter (convert_error e)]).
Proof.
  unfold_M. cbn. cases; cbn; eauto 10.
Qed.

(** X10.  A request reaches the transport only after [validate] returned
    the empty list, and it is then fully determined: a POST to the base URL
    of the class followed by the endpoint of the capability
    ([/v1/chat/completions], [/v1/embeddings], [/v1/audio/speech]), with the
    headers of the class, no query parameter, the converted request as body
    and the response model of the repository. *)
Theorem base_dispatch_request (cap : Capability) (env : Env)
    (self : Repository (Adapter cap)) (request : Request cap) (r : HttpRequest.t) :
  EvTransport r ∈ (run (base.dispatch cap env self request)).2 →
  validate cap (provider self) request = Return []
  ∧ ∃ headers body,
      _get_headers env self = Return headers
      ∧ convert_req cap (provider self) request = Return body
      ∧ r = {| HttpRequest.url := base_url (class self) +:+ endpoint cap;
               HttpRequest.method := "POST";
               HttpRequest.headers := headers;
               HttpRequest.params := None;
               HttpRequest.body := body;
               HttpRequest.model := response_model self |}.
Proof.
  destruct (run (base.dispatch cap env self request)) as [out t] eqn:Hrun.
  cbn. revert Hrun. unfold_M. cbn. intros Hrun Hin.
  cases; mem_inv;
    match goal with
    | H : nonempty ?l = false |- _ => destruct l; [|done]
    end; (split; [done | by eexists _, _]).
Qed.

Lemma base_dispatch_request_witness :
  ChatProvider.validate_chat_request accepting_adapter hello_request = Return []
  ∧ ∃ headers body,
      _get_headers env_up (openai_repository_with_key accepting_adapter "sk-test")
      = Return headers
      ∧ ChatProvider.convert_chat_request accepting_adapter hello_request
        = Return body
      ∧ openai_hello_request
        = {| HttpRequest.url := base_url OpenAI +:+ endpoint chat;
             HttpRequest.method := "POST";
             HttpRequest.headers := headers;
             HttpRequest.params := None;
             HttpRequest.body := body;
             HttpRequest.model := "ChatCompletionResponse" |}.
Proof.
  apply (base_dispatch_request chat env_up
           (openai_repository_with_key accepting_adapter "sk-test")
           hello_request openai_hello_request).
  vm_compute. do 2 right. left.
Defined.

(** X11.  A dispatch of repositories/base.py returns a response exactly
    when the adapter found no problem, converted the request, the class
    supplied headers, the transport answered the request so built, and the
    adapter converted the answer; the response is that conversion. *)
Theorem base_dispatch_returns (cap : Capability) (env : Env)
    (self : Repository (Adapter cap)) (request : Request cap)
    (response : Response cap) :
  (run (base.dispatch cap env self request)).1 = Return response
  ↔ ∃ headers body raw,
      validate cap (provider self) request = Return []
      ∧ convert_req cap (provider self) request = Return body
      ∧ _get_headers env self = Return headers
      ∧ make_request env
          {| HttpRequest.url := base_url (class self) +:+ endpoint cap;
             HttpRequest.method := "POST";
             HttpRequest.headers := headers;
             HttpRequest.params := None;
             HttpRequest.body := body;
             HttpRequest.model := response_model self |} = Return raw
      ∧ convert_resp cap (provider self) raw request = Return response.
Proof.
  split.
  - destruct (run (base.dispatch cap env self request)) as [out t] eqn:Hrun.
    cbn. intros ->. revert Hrun. unfold_M. cbn. intros Hrun.
    cases;
      match goal with
      | H : nonempty ?l = false |- _ => destruct l; [|done]
      end; by eexists _, _, _.
  - intros (headers & body & raw & Hv & Hb & Hh & Hr & Hc).
    unfold_M. by rewrite Hv, Hb, Hh, Hr, Hc.
Qed.

Lemma base_dispatch_returns_witness :
  (run (base.complete env_up
          (openai_repository_with_key accepting_adapter "sk-test")
          hello_request)).1 = Return hello_response.
Proof.
  apply (base_dispatch_returns chat env_up
           (openai_repository_with_key accepting_adapter "sk-test")
           hello_request hello_response).
  exists (HttpRequest.headers openai_hello_request),
    (VDict {[ "model" := VStr "m1" ]}), (VDict {[ "id" := VStr "chatcmpl-1" ]}).
  repeat split; reflexivity.
Defined.

(** X12.  An exception raised by the adapter's [validate] or by its request
    converter is raised before the [try] block: it leaves the dispatch as it
    is, [convert_error] is not called on it, and the transport is not
    reached. *)
Theorem base_dispatch_adapter_errors_unmapped (cap : Capability) (env : Env)
    (self : Repository (Adapter cap)) (request : Request cap) (e : exn) :
  (validate cap (provider self) request = Raise e →
     run (base.dispatch cap env self request)
     = (Raise e, [EvAdapter validate_request]))
  ∧ (validate cap (provider self) request = Return [] →
     convert_req cap (provider self) request = Raise e →
     run (base.dispatch cap env self request)
     = (Raise e, [EvAdapter validate_request; EvAdapter convert_request])).
Proof.
  unfold_M. split.
  - by intros ->.
  - by intros -> ->.
Qed.

Lemma base_dispatch_adapter_errors_unmapped_witness :
  run (base.complete env_up (openai_repository_with_key failing_adapter "sk-test")
         hello_request)
  = (Raise (OtherException "KeyError" "model"), [EvAdapter validate_request]).
Proof.
  destruct (base_dispatch_adapter_errors_unmapped chat env_up
              (openai_repository_with_key failing_adapter "sk-test")
              hello_request (OtherException "KeyError" "model")) as [H _].
  apply H. reflexivity.
Defined.

(** X13.  A repository built by the constructor of repositories/base.py,
    of any class but the Gemini ones, never sends a request: whatever the
    adapter, the request and the environment, its dispatch raises and the
    transport is not called (the class without mixin has no headers, the
    OpenAI and Anthropic classes read the key that was never assigned). *)
Theorem base_constructed_never_sends (cap : Capability) (env : Env)
    (c : RepoClass) (rm : string) (p : Adapter cap) (request : Request cap)
    (self : Repository (Adapter cap)) (t0 : trace) :
  c ≠ Gemini →
  base.__init__ c rm p t0 = (Return self, t0) →
  (∀ r, EvTransport r ∉ (run (base.dispatch cap env self request)).2)
  ∧ ∃ e, (run (base.dispatch cap env self request)).1 = Raise e.
Proof.
  intros Hc [= <-]. unfold_M. unfold _get_headers, get_api_key. cbn.
  destruct c; try done; cases; cbn; split; try (by eexists); intros r Hin; mem_inv.
Qed.

Lemma base_constructed_never_sends_witness :
  (∀ r, EvTransport r
        ∉ (run (base.complete env_up (openai_repository accepting_adapter)
                  hello_request)).2)
  ∧ ∃ e, (run (base.complete env_up (openai_repository accepting_adapter)
                 hello_request)).1 = Raise e.
Proof.
  apply (base_constructed_never_sends chat env_up OpenAI "ChatCompletionResponse"
           accepting_adapter hello_request (openai_repository accepting_adapter) []).
  - discriminate.
  - reflexivity.
Defined.

(** ** repositories/base_new.py and gemini.py: the decorated dispatchers *)

(** X14.  Under a valid configuration, a positional call whose capability
    check does not pass never reaches the adapter: when the check answers
    no, [UnsupportedOperationError] is raised, naming the capability and the
    provider (the word Gemini in gemini.py); when the check itself raises,
    that exception leaves as it is.  In both cases the one record in the
    trace is that of the request logger. *)
Theorem capability_check_guards_adapter (cap : Capability) (env : Env)
    (self : Repository (Adapter cap)) (request : Request cap) (t : trace) :
  configured self = true →
  (isinstance_provider env = Return false →
     base_new.dispatch cap env positional self request t
     = (Raise (UnsupportedOperationError
                 (label cap +:+ " not supported by " +:+ provider_name (class self))
                 (provider_name (class self))),
        t ++ [EvLog ERROR "Request failed"])
     ∧ ∀ action,
         gemini.dispatch cap action env positional self request t
         = (Raise (UnsupportedOperationError
                     (label cap +:+ " not supported by Gemini")
                     (provider_name (class self))),
            t ++ [EvLog ERROR "Request failed"]))
  ∧ (∀ e, isinstance_provider env = Raise e →
       base_new.dispatch cap env positional self request t
       = (Raise e, t ++ [EvLog ERROR "Request failed"])
       ∧ ∀ action,
           gemini.dispatch cap action env positional self request t
           = (Raise e, t ++ [EvLog ERROR "Request failed"])).
Proof.
  unfold configured. intros Hc. unfold_M. unfold get_api_key.
  destruct (api_key self) as [|k]; [done|]. cbn. rewrite Hc. cbn.
  split; [intros ->|intros e ->]; done.
Qed.

Lemma capability_check_guards_adapter_witness :
  base_new.complete env_unsupported positional
    (openai_repository_with_key accepting_adapter "sk-test") hello_request []
  = (Raise (UnsupportedOperationError "Chat completion not supported by openai"
              "openai"),
     [EvLog ERROR "Request failed"]).
Proof.
  destruct (capability_check_guards_adapter chat env_unsupported
              (openai_repository_with_key accepting_adapter "sk-test")
              hello_request [] eq_refl) as [H _].
  destruct (H eq_refl) as [H' _]. exact H'.
Defined.

(** X15.  With the key unset, [None] or empty, no method of base_new.py or
    gemini.py calls the adapter or the transport, however the request is
    passed and whatever the capability check would answer; what is raised
    is the Configuration error naming the provider, or [AttributeError]
    when the attribute was never assigned, or the [TypeError] of the
    logging wrapper when the request is passed by keyword. *)
Theorem unconfigured_makes_no_call (cap : Capability) (env : Env)
    (style : CallStyle) (self : Repository (Adapter cap)) (request : Request cap) :
  configured self = false →
  (calls (run (base_new.dispatch cap env style self request)).2 = []
   ∧ ∃ e, (run (base_new.dispatch cap env style self request)).1 = Raise e
          ∧ (e = ConfigurationError
                   ("API key not configured for " +:+ provider_name (class self))
                   (provider_name (class self))
             ∨ e = AttributeError "api_key"
             ∨ e = TypeError "'bool' object is not callable"))
  ∧ ∀ action,
      calls (run (gemini.dispatch cap action env style self request)).2 = []
      ∧ ∃ e, (run (gemini.dispatch cap action env style self request)).1 = Raise e
             ∧ (e = ConfigurationError
                      ("API key not configured for " +:+ provider_name (class self))
                      (provider_name (class self))
                ∨ e = AttributeError "api_key"
                ∨ e = TypeError "'bool' object is not callable").
Proof.
  unfold configured. intros Hc. unfold_M. unfold get_api_key.
  destruct style, (api_key self) as [|k]; cbn; rewrite ?Hc; cbn;
    repeat split; try done; intros; repeat split; try done; eexists; eauto.
Qed.

Lemma unconfigured_makes_no_call_witness :
  calls (run (base_new.complete env_up positional
                (openai_repository_with_key accepting_adapter "") hello_request)).2
  = [].
Proof.
  destruct (unconfigured_makes_no_call chat env_up positional
              (openai_repository_with_key accepting_adapter "") hello_request
              eq_refl) as [[H _] _].
  exact H.
Defined.

(** X16.  No method of base_new.py or gemini.py ever returns a response,
    however it is called.  On a positional call the wrapper runs the method
    body, which makes the calls it makes, and then: an exception of the body
    leaves as it is, and a response of the body is lost to the [TypeError]
    the wrapper raises when it means to log it. *)
Theorem decorated_dispatch_never_returns (cap : Capability) (env : Env)
    (style : CallStyle) (self : Repository (Adapter cap)) (request : Request cap) :
  (∀ a, (run (base_new.dispatch cap env style self request)).1 ≠ Return a)
  ∧ (∀ action a,
       (run (gemini.dispatch cap action env style self request)).1 ≠ Return a)
  ∧ calls (run (base_new.dispatch cap env positional self request)).2
    = (run (base_new.dispatch_body cap env self request)).2
  ∧ (∀ a, (run (base_new.dispatch_body cap env self request)).1 = Return a →
       (run (base_new.dispatch cap env positional self request)).1
       = Raise (TypeError "'bool' object is not callable"))
  ∧ (∀ e, (run (base_new.dispatch_body cap env self request)).1 = Raise e →
       (run (base_new.dispatch cap env positional self request)).1 = Raise e).
Proof.
  split; [|split; [|split; [|split]]].
  - intros a. unfold base_new.dispatch, run. rewrite log_operation_unfold.
    destruct (true && (in_kwargs style && model_truthy request)); [done|].
    by destruct (base_new.dispatch_body _ _ _ _ _) as [[?|?] ?].
  - intros action a. unfold gemini.dispatch, run. rewrite log_operation_unfold.
    destruct (true && (in_kwargs style && model_truthy request)); [done|].
    by destruct (gemini.dispatch_body _ _ _ _ _ _) as [[?|?] ?].
  - unfold_M. unfold get_api_key. cbn. cases; done.
  - intros a. unfold base_new.dispatch, run. rewrite log_operation_unfold. cbn.
    destruct (base_new.dispatch_body _ _ _ _ _) as [[?|?] ?]; [done|]. done.
  - intros e. unfold base_new.dispatch, run. rewrite log_operation_unfold. cbn.
    destruct (base_new.dispatch_body _ _ _ _ _) as [[?|?] ?]; [done|].
    by intros [= ->].
Qed.

Lemma decorated_dispatch_never_returns_witness :
  (run (base_new.complete env_up positional
          (openai_repository_with_key accepting_adapter "sk-test")
          hello_request)).1
  = Raise (TypeError "'bool' object is not callable").
Proof.
  destruct (decorated_dispatch_never_returns chat env_up positional
              (openai_repository_with_key accepting_adapter "sk-test")
              hello_request) as (_ & _ & _ & H & _).
  apply (H hello_response). reflexivity.
Defined.


